(** * Airspace Copilot: the flight tools of [server.py] and the tool-calling
    agents of [agents.py]

    The Python code is embedded shallowly.  Python objects that travel through
    the program (the JSON payload of the webhook, the tool arguments decoded
    from the model's tool call, the tool results) are values of the untyped
    [Py.value]; Python exceptions are the [Raise] results of [Py.result].  The
    outside world (the region webhook, the completion service, the [json]
    module, the process environment) is a record the functions read, and the
    effects the properties speak about (fetches, completion calls, tool
    dispatches, the lazily built client) are kept in an explicit state. *)

From Stdlib Require Import ZArith List String Ascii Bool Lia.
From Stdlib Require Import Floats Uint63 DecimalString.
Import ListNotations.

Set Warnings "-register-all".
Open Scope string_scope.

(** ** Python objects *)

Module Py.

(** The exceptions the two files can meet.  [str_exn] is Python's [str(e)]. *)
Inductive exn : Type :=
| ValueError (msg : string)
| KeyError (key : string)
| TypeError (msg : string)
| AttributeError (msg : string)
| JSONDecodeError (msg : string)
| RequestException (msg : string)   (* requests: connection, timeout, HTTP status, body *)
| APIError (msg : string).          (* the completion service's client *)

Definition str_exn (e : exn) : string :=
  match e with
  | ValueError m | TypeError m | AttributeError m
  | JSONDecodeError m | RequestException m | APIError m => m
  | KeyError k => "'" ++ k ++ "'"
  end.

Inductive result (A : Type) : Type :=
| Ok (a : A)
| Raise (e : exn).
Arguments Ok {A} a.
Arguments Raise {A} e.

Definition rbind {A B} (r : result A) (k : A -> result B) : result B :=
  match r with
  | Ok a => k a
  | Raise e => Raise e
  end.

(** What [json.loads] builds and [json.dumps] accepts: [None], [bool], [int],
    [float] (a binary64, as Rocq's primitive floats are), [str], [list] and
    [dict] with string keys, kept in insertion order. *)
Inductive value : Type :=
| VNone
| VBool (b : bool)
| VInt (z : Z)
| VFloat (f : float)
| VStr (s : string)
| VList (l : list value)
| VDict (d : list (string * value)).

(** *** Dictionaries *)

Fixpoint dict_get (k : string) (d : list (string * value)) : option value :=
  match d with
  | [] => None
  | (k', v) :: d' => if String.eqb k k' then Some v else dict_get k d'
  end.

(** [d.setdefault(k, v)]: the entry is added, last, only when [k] is absent. *)
Definition dict_setdefault (k : string) (v : value) (d : list (string * value))
  : list (string * value) :=
  match dict_get k d with
  | Some _ => d
  | None => (d ++ [(k, v)])%list
  end.

Definition type_name (v : value) : string :=
  match v with
  | VNone => "NoneType"
  | VBool _ => "bool"
  | VInt _ => "int"
  | VFloat _ => "float"
  | VStr _ => "str"
  | VList _ => "list"
  | VDict _ => "dict"
  end.

Definition no_attribute (v : value) (attr : string) : exn :=
  AttributeError ("'" ++ type_name v ++ "' object has no attribute '" ++ attr ++ "'").

(** [o.get(k)] and [o.get(k, dflt)]: only a dict has the method. *)
Definition py_get_default (o : value) (k : string) (dflt : value) : result value :=
  match o with
  | VDict d => Ok (match dict_get k d with Some v => v | None => dflt end)
  | _ => Raise (no_attribute o "get")
  end.

Definition py_get (o : value) (k : string) : result value :=
  py_get_default o k VNone.

(** [d[k]] on a dict. *)
Definition dict_getitem (d : list (string * value)) (k : string) : result value :=
  match dict_get k d with
  | Some v => Ok v
  | None => Raise (KeyError k)
  end.

(** *** Truth, length, iteration, comparison *)

(** [bool(v)]: [None], [False], zero, and the empty string, list and dict are
    false; a NaN is true. *)
Definition truthy (v : value) : bool :=
  match v with
  | VNone => false
  | VBool b => b
  | VInt z => negb (z =? 0)%Z
  | VFloat f => negb (PrimFloat.eqb f 0%float)
  | VStr s => negb (String.eqb s "")
  | VList l => match l with [] => false | _ => true end
  | VDict d => match d with [] => false | _ => true end
  end.

(** [a or b] on already evaluated operands. *)
Definition py_or (a b : value) : value := if truthy a then a else b.

(** [len(v)]. *)
Definition py_len (v : value) : result nat :=
  match v with
  | VStr s => Ok (String.length s)
  | VList l => Ok (List.length l)
  | VDict d => Ok (List.length d)
  | _ => Raise (TypeError ("object of type '" ++ type_name v ++ "' has no len()"))
  end.

(** What [for x in v] visits: the items of a list, the keys of a dict, the
    characters of a string. *)
Definition py_iter (v : value) : result (list value) :=
  match v with
  | VList l => Ok l
  | VDict d => Ok (map (fun kv => VStr (fst kv)) d)
  | VStr s => Ok (map (fun c => VStr (String c "")) (list_ascii_of_string s))
  | _ => Raise (TypeError ("'" ++ type_name v ++ "' object is not iterable"))
  end.

Definition not_supported (op : string) (v : value) : exn :=
  TypeError ("'" ++ op ++ "' not supported between instances of '"
             ++ type_name v ++ "' and 'int'").

(** The float of an integer, exact below 2^53 in magnitude. *)
Definition float_of_Z (z : Z) : float :=
  match z with
  | Z0 => 0%float
  | Zpos _ => PrimFloat.of_uint63 (Uint63.of_Z z)
  | Zneg p => PrimFloat.opp (PrimFloat.of_uint63 (Uint63.of_Z (Zpos p)))
  end.

(** [v > n] and [v < n] for an [int] literal [n].  Python compares an int
    with a float exactly, which for a literal that a binary64 holds exactly
    is the float comparison with that float.  A [bool] compares as the int it
    is; any comparison with a NaN is false; the other types raise. *)
Definition py_gt (v : value) (n : Z) : result bool :=
  match v with
  | VBool b => Ok (n <? Z.b2z b)%Z
  | VInt z => Ok (n <? z)%Z
  | VFloat f => Ok (PrimFloat.ltb (float_of_Z n) f)
  | _ => Raise (not_supported ">" v)
  end.

Definition py_lt (v : value) (n : Z) : result bool :=
  match v with
  | VBool b => Ok (Z.b2z b <? n)%Z
  | VInt z => Ok (z <? n)%Z
  | VFloat f => Ok (PrimFloat.ltb f (float_of_Z n))
  | _ => Raise (not_supported "<" v)
  end.

(** *** Strings

    Text is modelled as ASCII: [string] is the Python [str] whose characters
    are below 128, which is what a callsign, a region name and the messages of
    this program are made of. *)

(** [c.isspace()] for an ASCII character: tab, line feed, vertical tab, form
    feed, carriage return, the four separators 28..31, and the space. *)
Definition isspace (c : ascii) : bool :=
  let n := nat_of_ascii c in
  ((9 <=? n)%nat && (n <=? 13)%nat) || ((28 <=? n)%nat && (n <=? 32)%nat).

Fixpoint lstrip (s : string) : string :=
  match s with
  | EmptyString => EmptyString
  | String c s' => if isspace c then lstrip s' else s
  end.

Fixpoint rstrip (s : string) : string :=
  match s with
  | EmptyString => EmptyString
  | String c s' =>
      match rstrip s' with
      | EmptyString => if isspace c then EmptyString else String c EmptyString
      | r => String c r
      end
  end.

(** [s.strip()] *)
Definition strip (s : string) : string := rstrip (lstrip s).

Definition upper_char (c : ascii) : ascii :=
  let n := nat_of_ascii c in
  if (97 <=? n)%nat && (n <=? 122)%nat then ascii_of_nat (n - 32) else c.

(** [s.upper()] *)
Fixpoint upper (s : string) : string :=
  match s with
  | EmptyString => EmptyString
  | String c s' => String (upper_char c) (upper s')
  end.

(** [sep.join(l)] *)
Fixpoint join (sep : string) (l : list string) : string :=
  match l with
  | [] => ""
  | [x] => x
  | x :: l' => x ++ sep ++ join sep l'
  end.

(** The [str] methods on an arbitrary object: only a [str] has them. *)
Definition py_strip (v : value) : result string :=
  match v with
  | VStr s => Ok (strip s)
  | _ => Raise (no_attribute v "strip")
  end.

End Py.

(** ** The outside world and the effects *)

Module Runtime.
Import Py.

(** *** The chat-completion interface of the Groq client *)

(** One requested tool call: [call.id], [call.function.name] and
    [call.function.arguments] (a JSON text, possibly absent). *)
Record tool_call : Type := {
  call_id : string;
  fn_name : string;
  fn_arguments : option string
}.

(** [choices[0].message] of a completion. *)
Record message : Type := {
  content : option string;
  tool_calls : option (list tool_call)
}.

(** An entry of the [messages] list sent to the service. *)
Inductive chat_message : Type :=
| Plain (role text : string)                       (* {"role": .., "content": ..} *)
| Assistant (m : message)                          (* the service's own message object *)
| ToolMessage (tool_call_id name text : string).   (* {"role": "tool", ...} *)

(** An entry of [TOOLS]: a function schema with its parameters (name,
    description, default) and the required ones. *)
Record tool_schema : Type := {
  tool_name : string;
  tool_description : string;
  tool_properties : list (string * string * option string);
  tool_required : list string
}.

(** The keyword arguments of [chat.completions.create]. *)
Record request : Type := {
  req_model : string;
  req_messages : list chat_message;
  req_tools : option (list tool_schema);
  req_tool_choice : option string
}.

(** *** The world

    What the program reads from outside itself.  The webhook and the
    completion service may answer differently each time they are asked, so
    both are indexed by the number of calls made before. *)
Record world : Type := {
  GROQ_API_KEY : option string;                          (* os.environ *)
  REGION1_WEBHOOK : option string;                       (* os.environ *)
  (* requests.get(url, timeout=10), raise_for_status(), resp.json() *)
  requests_get_json : nat -> string -> result value;
  completions_create : nat -> request -> result message;
  json_loads : string -> result value;
  json_dumps : value -> string;
  builtin_str : value -> string                          (* str(v) of a non-str *)
}.

(** [str(v)], as an f-string applies it. *)
Definition py_str (w : world) (v : value) : string :=
  match v with
  | VStr s => s
  | _ => builtin_str w v
  end.

(** *** The state

    [client_built] is the module global [_client] being set; the three logs
    record, oldest first, every webhook fetch, every completion call and every
    call of [execute_tool]. *)
Record state : Type := {
  client_built : bool;
  fetches : list string;
  completions : list request;
  dispatched : list (string * value)
}.

Definition initial : state :=
  {| client_built := false; fetches := []; completions := []; dispatched := [] |}.

(** Computations: a result and the state left behind, also when raising. *)
Definition M (A : Type) : Type := state -> result A * state.

Definition ret {A} (a : A) : M A := fun s => (Ok a, s).
Definition raise {A} (e : exn) : M A := fun s => (Raise e, s).
Definition lift {A} (r : result A) : M A := fun s => (r, s).

Definition bind {A B} (c : M A) (k : A -> M B) : M B :=
  fun s =>
    match c s with
    | (Ok a, s') => k a s'
    | (Raise e, s') => (Raise e, s')
    end.

(** [try: c  except Exception as e: h e] *)
Definition try_except {A} (c : M A) (h : exn -> M A) : M A :=
  fun s =>
    match c s with
    | (Ok a, s') => (Ok a, s')
    | (Raise e, s') => h e s'
    end.

End Runtime.

Declare Scope py_scope.
Delimit Scope py_scope with py.
Notation "x <- c ;; k" := (Runtime.bind c (fun x => k))
  (at level 61, c at next level, right associativity) : py_scope.
Notation "x <~ r ;; k" := (Py.rbind r (fun x => k))
  (at level 61, r at next level, right associativity) : py_scope.

(** ** [server.py] *)

Module Server.
Import Py Runtime.
Local Open Scope py_scope.

(** *** Types

    The [TypedDict] classes, as the shapes they admit.  A key of a
    [total=False] class may be absent; [Optional[t]] admits [None]; an [int]
    is accepted where a [float] is declared, and a [bool] is an [int]. *)

Definition is_str (v : value) : bool :=
  match v with VStr _ => true | _ => false end.
Definition is_bool (v : value) : bool :=
  match v with VBool _ => true | _ => false end.
Definition is_int (v : value) : bool :=
  match v with VInt _ | VBool _ => true | _ => false end.
Definition is_float (v : value) : bool :=
  match v with VFloat _ | VInt _ | VBool _ => true | _ => false end.
Definition Optional (t : value -> bool) (v : value) : bool :=
  match v with VNone => true | _ => t v end.

Definition key_of (total : bool) (d : list (string * value))
    (kt : string * (value -> bool)) : bool :=
  match dict_get (fst kt) d with
  | Some v => snd kt v
  | None => negb total
  end.

Definition Flight (v : value) : bool :=
  match v with
  | VDict d =>
      forallb (key_of false d)
        [("icao24", is_str);
         ("callsign", Optional is_str);
         ("origin_country", is_str);
         ("time_position", Optional is_int);
         ("last_contact", Optional is_int);
         ("longitude", Optional is_float);
         ("latitude", Optional is_float);
         ("baro_altitude", Optional is_float);
         ("on_ground", is_bool);
         ("velocity", Optional is_float);
         ("true_track", Optional is_float);
         ("vertical_rate", Optional is_float);
         ("geo_altitude", Optional is_float);
         ("squawk", Optional is_str);
         ("spi", is_bool);
         ("position_source", Optional is_int)]
  | _ => false
  end.

Definition list_of (t : value -> bool) (v : value) : bool :=
  match v with VList l => forallb t l | _ => false end.

Definition Snapshot (v : value) : bool :=
  match v with
  | VDict d =>
      forallb (key_of true d)
        [("region", is_str);
         ("snapshot_time", is_int);
         ("fetched_at_iso", is_str);
         ("flight_count", is_int);
         ("flights", list_of Flight)]
  | _ => false
  end.

(** [REGION_WEBHOOKS]: one region, its URL taken from the environment. *)
Definition REGION_WEBHOOKS (w : world) : list (string * string) :=
  [("region1",
    match REGION1_WEBHOOK w with
    | Some url => url
    | None => "http://localhost:5678/webhook/latest-region1"
    end)].

Fixpoint assoc (k : string) (l : list (string * string)) : option string :=
  match l with
  | [] => None
  | (k', v) :: l' => if String.eqb k k' then Some v else assoc k l'
  end.

(** [REGION_WEBHOOKS[region]] guarded by [region not in REGION_WEBHOOKS]: a
    list or a dict cannot be hashed, and nothing but a string is a key. *)
Definition webhook_of (w : world) (region : value) : result (option string) :=
  match region with
  | VList _ | VDict _ =>
      Raise (TypeError ("unhashable type: '" ++ type_name region ++ "'"))
  | VStr r => Ok (assoc r (REGION_WEBHOOKS w))
  | _ => Ok None
  end.

(** The network call, logged. *)
Definition requests_get (w : world) (url : string) : M value :=
  fun s =>
    (requests_get_json w (List.length (fetches s)) url,
     {| client_built := client_built s;
        fetches := (fetches s ++ [url])%list;
        completions := completions s;
        dispatched := dispatched s |}).

Definition _fetch_snapshot (w : world) (region : value) : M value :=
  match webhook_of w region with
  | Raise e => raise e
  | Ok None =>
      raise (ValueError ("Unknown region '" ++ py_str w region ++ "'. "
                         ++ "Known regions: "
                         ++ join ", " (map fst (REGION_WEBHOOKS w))))
  | Ok (Some url) =>
      data <- requests_get w url ;;
      match data with
      | VDict d =>
          let d := dict_setdefault "region" region d in
          n <- lift (flights <~ py_get_default (VDict d) "flights" (VList []) ;;
                     py_len flights) ;;
          ret (VDict (dict_setdefault "flight_count" (VInt (Z.of_nat n)) d))
      | _ => raise (no_attribute data "setdefault")
      end
  end.

Definition flights_list_region_snapshot (w : world) (region : value) : M value :=
  snapshot <- _fetch_snapshot w region ;;
  ret snapshot.

(** [snapshot[k]]: the fetcher only returns dicts. *)
Definition py_getitem (o : value) (k : string) : result value :=
  match o with
  | VDict d => dict_getitem d k
  | _ => Raise (TypeError ("'" ++ type_name o ++ "' object is not subscriptable"))
  end.

(** [(f.get("callsign") or "").strip().upper()] *)
Definition stored_callsign (f : value) : result string :=
  c <~ py_get f "callsign" ;;
  cs <~ py_strip (py_or c (VStr "")) ;;
  Ok (upper cs).

(** The search loop: [found] stays [None] unless some flight matches, and the
    first match ends the loop. *)
Fixpoint find_callsign (target : string) (flights : list value) : result value :=
  match flights with
  | [] => Ok VNone
  | f :: rest =>
      cs <~ stored_callsign f ;;
      if String.eqb cs target then Ok f else find_callsign target rest
  end.

Definition flights_get_by_callsign (w : world) (callsign region : value) : M value :=
  snapshot <- _fetch_snapshot w region ;;
  lift (
    target <~ (t <~ py_strip callsign ;; Ok (upper t)) ;;
    flights <~ (l <~ py_get_default snapshot "flights" (VList []) ;; py_iter l) ;;
    found <~ find_callsign target flights ;;
    match found with
    | VNone =>
        r <~ py_getitem snapshot "region" ;;
        t <~ py_getitem snapshot "snapshot_time" ;;
        i <~ py_getitem snapshot "fetched_at_iso" ;;
        Ok (VDict [("region", r); ("snapshot_time", t); ("fetched_at_iso", i);
                   ("flight", VNone);
                   ("message", VStr ("No flight with callsign '" ++ py_str w callsign
                                     ++ "' found in " ++ py_str w region))])
    | _ =>
        r <~ py_getitem snapshot "region" ;;
        t <~ py_getitem snapshot "snapshot_time" ;;
        i <~ py_getitem snapshot "fetched_at_iso" ;;
        Ok (VDict [("region", r); ("snapshot_time", t); ("fetched_at_iso", i);
                   ("flight", found);
                   ("message", VStr ("Found flight " ++ py_str w callsign
                                     ++ " in " ++ py_str w region))])
    end).

Definition low_speed : string := "Unusually low speed at high altitude".
Definition high_descent : string := "Very high descent rate".
Definition high_climb : string := "Very high climb rate".

(** The three locals of the detector's loop body. *)
Definition velocity_of (f : value) : result value :=
  v <~ py_get f "velocity" ;; Ok (py_or v (VFloat 0)).

Definition altitude_of (f : value) : result value :=
  g <~ py_get f "geo_altitude" ;;
  b <~ py_get f "baro_altitude" ;;
  Ok (py_or (py_or g b) (VFloat 0)).

Definition vertical_rate_of (f : value) : result value :=
  r <~ py_get f "vertical_rate" ;; Ok (py_or r (VFloat 0)).

(** The rules of the loop body: the [reasons] list and [severity] once both
    [if] statements have run.  [and] does not evaluate [v < 100] unless
    [alt > 8000]; the climb test runs only when the descent test is false. *)
Definition evaluate_rules (f : value) : result (list string * string) :=
  v <~ velocity_of f ;;
  alt <~ altitude_of f ;;
  vr <~ vertical_rate_of f ;;
  let reasons : list string := [] in
  let severity := "info" in
  low <~ (high <~ py_gt alt 8000 ;;
          if high then py_lt v 100 else Ok false) ;;
  let '(reasons, severity) :=
    if low then ((reasons ++ [low_speed])%list, "warning") else (reasons, severity) in
  descent <~ py_lt vr (-20) ;;
  if descent then Ok ((reasons ++ [high_descent])%list, "warning")
  else
    climb <~ py_gt vr 20 ;;
    if climb then Ok ((reasons ++ [high_climb])%list, "warning")
    else Ok (reasons, severity).

(** One turn of the loop: [alerts] after the body has run on [f]. *)
Definition alert_step (alerts : list value) (f : value) : result (list value) :=
  rs <~ evaluate_rules f ;;
  let '(reasons, severity) := rs in
  match reasons with
  | [] => Ok alerts
  | _ => Ok (alerts ++ [VDict [("flight", f);
                               ("reason", VStr (join "; " reasons));
                               ("severity", VStr severity)]])%list
  end.

Fixpoint alerts_loop (alerts : list value) (flights : list value)
  : result (list value) :=
  match flights with
  | [] => Ok alerts
  | f :: rest =>
      alerts' <~ alert_step alerts f ;;
      alerts_loop alerts' rest
  end.

Definition alerts_list_active (w : world) (region : value) : M value :=
  snapshot <- _fetch_snapshot w region ;;
  lift (
    flights <~ (l <~ py_get_default snapshot "flights" (VList []) ;; py_iter l) ;;
    alerts <~ alerts_loop [] flights ;;
    r <~ py_getitem snapshot "region" ;;
    t <~ py_getitem snapshot "snapshot_time" ;;
    i <~ py_getitem snapshot "fetched_at_iso" ;;
    Ok (VDict [("region", r); ("snapshot_time", t); ("fetched_at_iso", i);
               ("alert_count", VInt (Z.of_nat (List.length alerts)));
               ("alerts", VList alerts)])).

End Server.

(** ** [agents.py] *)

Module Agents.
Import Py Runtime.
Local Open Scope py_scope.

(** *** The client *)

Definition get_groq_client (w : world) : result unit :=
  let missing :=
    ValueError ("GROQ_API_KEY environment variable is not set. "
                ++ "Please set it using: $env:GROQ_API_KEY = 'your-key' (PowerShell) "
                ++ "or set GROQ_API_KEY=your-key (CMD)") in
  match GROQ_API_KEY w with
  | None => Raise missing
  | Some api_key => if String.eqb api_key "" then Raise missing else Ok tt
  end.

(** [client()]: built on first use, kept in the global afterwards. *)
Definition client (w : world) : M unit :=
  fun s =>
    if client_built s then (Ok tt, s)
    else
      match get_groq_client w with
      | Ok _ => (Ok tt, {| client_built := true;
                           fetches := fetches s;
                           completions := completions s;
                           dispatched := dispatched s |})
      | Raise e => (Raise e, s)
      end.

(** [client().chat.completions.create(...)], logged. *)
Definition chat_completions_create (w : world) (req : request) : M message :=
  _ <- client w ;;
  fun s =>
    (completions_create w (List.length (completions s)) req,
     {| client_built := client_built s;
        fetches := fetches s;
        completions := (completions s ++ [req])%list;
        dispatched := dispatched s |}).

Definition MODEL_NAME : string := "llama-3.3-70b-versatile".

(** *** The tool registry *)

Definition TOOLS : list tool_schema :=
  [ {| tool_name := "flights_list_region_snapshot";
       tool_description :=
         "Get the latest cached snapshot of all flights for a region.";
       tool_properties :=
         [("region", "Region identifier, e.g. 'region1'.", Some "region1")];
       tool_required := [] |};
    {| tool_name := "flights_get_by_callsign";
       tool_description :=
         "Look up a single flight by callsign in the latest snapshot.";
       tool_properties :=
         [("callsign", "Flight callsign, e.g. 'PIA293'.", None);
          ("region", "Region identifier, default 'region1'.", Some "region1")];
       tool_required := ["callsign"] |};
    {| tool_name := "alerts_list_active";
       tool_description :=
         "List flights in a region that look anomalous (low speed at cruise altitude, very high climb/descent rate).";
       tool_properties :=
         [("region", "Region identifier, default 'region1'.", Some "region1")];
       tool_required := [] |} ].

(** Calling [f] with the keyword arguments of [arguments], first half:
    [arguments] has to be a mapping, and each of its keys a parameter of [f]. *)
Definition keywords (f : string) (params : list string) (arguments : value)
  : result (list (string * value)) :=
  match arguments with
  | VDict d =>
      match find (fun kv => negb (existsb (String.eqb (fst kv)) params)) d with
      | Some (k, _) =>
          Raise (TypeError (f ++ "() got an unexpected keyword argument '" ++ k ++ "'"))
      | None => Ok d
      end
  | _ =>
      Raise (TypeError (f ++ "() argument after ** must be a mapping, not "
                        ++ type_name arguments))
  end.

(** Second half: a parameter takes the keyword's value, else its default. *)
Definition parameter (f : string) (kw : list (string * value)) (name : string)
    (default : option value) : result value :=
  match dict_get name kw, default with
  | Some v, _ => Ok v
  | None, Some v => Ok v
  | None, None =>
      Raise (TypeError (f ++ "() missing 1 required positional argument: '"
                        ++ name ++ "'"))
  end.

Definition log_dispatch (name : string) (arguments : value) : M unit :=
  fun s =>
    (Ok tt, {| client_built := client_built s;
               fetches := fetches s;
               completions := completions s;
               dispatched := (dispatched s ++ [(name, arguments)])%list |}).

(** Tool name to implementation. *)
Definition execute_tool (w : world) (name : string) (arguments : value) : M value :=
  _ <- log_dispatch name arguments ;;
  if String.eqb name "flights_list_region_snapshot" then
    kw <- lift (keywords name ["region"] arguments) ;;
    region <- lift (parameter name kw "region" (Some (VStr "region1"))) ;;
    Server.flights_list_region_snapshot w region
  else if String.eqb name "flights_get_by_callsign" then
    kw <- lift (keywords name ["callsign"; "region"] arguments) ;;
    callsign <- lift (parameter name kw "callsign" None) ;;
    region <- lift (parameter name kw "region" (Some (VStr "region1"))) ;;
    Server.flights_get_by_callsign w callsign region
  else if String.eqb name "alerts_list_active" then
    kw <- lift (keywords name ["region"] arguments) ;;
    region <- lift (parameter name kw "region" (Some (VStr "region1"))) ;;
    Server.alerts_list_active w region
  else raise (ValueError ("Unknown tool: " ++ name)).

(** *** The tool-calling loop *)

(** [tool_name not in allowed_tools], under [allowed_tools is not None]. *)
Definition not_allowed (allowed_tools : option (list string)) (tool_name : string)
  : bool :=
  match allowed_tools with
  | None => false
  | Some l => negb (existsb (String.eqb tool_name) l)
  end.

Definition error_result (msg : string) : value := VDict [("error", VStr msg)].

(** [fn.arguments or "{}"]: the JSON text the loop decodes for a call. *)
Definition arguments_text (call : tool_call) : string :=
  match fn_arguments call with
  | None => "{}"
  | Some a => if String.eqb a "" then "{}" else a
  end.

(** The body of [for call in tool_calls]: the message it appends. *)
Definition run_tool_call (w : world) (allowed_tools : option (list string))
    (call : tool_call) : M chat_message :=
  let tool_name := fn_name call in
  args <- lift (json_loads w (arguments_text call)) ;;
  tool_result <-
    (if not_allowed allowed_tools tool_name then
       ret (error_result ("Tool " ++ tool_name ++ " is not allowed for this agent."))
     else
       try_except (execute_tool w tool_name args)
                  (fun e => ret (error_result (str_exn e)))) ;;
  ret (ToolMessage (call_id call) tool_name (json_dumps w tool_result)).

Fixpoint run_tool_calls (w : world) (allowed_tools : option (list string))
    (calls : list tool_call) (messages : list chat_message)
  : M (list chat_message) :=
  match calls with
  | [] => ret messages
  | call :: rest =>
      m <- run_tool_call w allowed_tools call ;;
      run_tool_calls w allowed_tools rest (messages ++ [m])%list
  end.

Definition content_or_empty (m : message) : string :=
  match content m with
  | Some c => c
  | None => ""
  end.

(** The tool list of an agent: all of [TOOLS], or those it is allowed. *)
Definition tools_for (allowed_tools : option (list string)) : list tool_schema :=
  match allowed_tools with
  | None => TOOLS
  | Some l => filter (fun t => existsb (String.eqb (tool_name t)) l) TOOLS
  end.

(** The first call's arguments: the messages, the tools, [tool_choice="auto"]. *)
Definition first_request (messages : list chat_message)
    (tools : list tool_schema) : request :=
  {| req_model := MODEL_NAME;
     req_messages := messages;
     req_tools := Some tools;
     req_tool_choice := Some "auto" |}.

(** The arguments of a call without tools. *)
Definition plain_request (messages : list chat_message) : request :=
  {| req_model := MODEL_NAME;
     req_messages := messages;
     req_tools := None;
     req_tool_choice := None |}.

Definition run_tool_calling_chat (w : world) (system_prompt user_query : string)
    (allowed_tools : option (list string)) : M string :=
  let messages := [Plain "system" system_prompt; Plain "user" user_query] in
  let tools := tools_for allowed_tools in
  first <- chat_completions_create w (first_request messages tools) ;;
  let messages := (messages ++ [Assistant first])%list in
  match tool_calls first with
  | None | Some [] => ret (content_or_empty first)
  | Some calls =>
      messages <- run_tool_calls w allowed_tools calls messages ;;
      final <- chat_completions_create w (plain_request messages) ;;
      ret (content_or_empty final)
  end.

(** *** The agents *)

Definition traveler_agent (w : world) (question : string) : M string :=
  let system :=
    "You are a traveler support assistant. "
    ++ "Help passengers understand where their flight is, "
    ++ "its altitude, speed, and whether anything looks unusual. "
    ++ "Use the flights_get_by_callsign tool when needed." in
  run_tool_calling_chat w system question (Some ["flights_get_by_callsign"]).

Definition ops_agent (w : world) (question : string) : M string :=
  let system :=
    "You are an airline operations specialist monitoring airspace safety. "
    ++ "Use flights_list_region_snapshot and alerts_list_active to analyze "
    ++ "current traffic, highlight anomalies, and propose actions." in
  run_tool_calling_chat w system question
    (Some ["flights_list_region_snapshot"; "alerts_list_active"]).

Definition nl : string := String (ascii_of_nat 10) "".

Definition traveler_with_ops (w : world) (callsign passenger_question : string)
  : M string :=
  let base_question :=
    "My flight " ++ callsign ++ " is in region1. " ++ passenger_question ++ " "
    ++ "Please use tools to check this specific flight." in
  traveler_reply <- traveler_agent w base_question ;;
  let ops_prompt :=
    "Consider flight " ++ callsign ++ " in region1. "
    ++ "Give a short situation report focusing on nearby anomalies "
    ++ "and anything that could worry the passenger." in
  ops_reply <- ops_agent w ops_prompt ;;
  let system :=
    "You are a coordinator between a traveler support agent and "
    ++ "an operations agent. You will see both of their messages and "
    ++ "must produce ONE clear answer for the passenger. "
    ++ "Reassure them when appropriate, but do not hide serious issues." in
  let messages :=
    [Plain "system" system;
     Plain "user"
       ("Passenger question: " ++ passenger_question ++ nl
        ++ "Flight: " ++ callsign ++ nl ++ nl
        ++ "Traveler agent said:" ++ nl ++ traveler_reply ++ nl ++ nl
        ++ "Ops agent said:" ++ nl ++ ops_reply ++ nl ++ nl
        ++ "Now give a final answer for the passenger.")] in
  final <- chat_completions_create w (plain_request messages) ;;
  ret (content_or_empty final).

End Agents.

(** ** Notions the properties are stated with *)

Module Notions.
Import Py Runtime Server Agents.
Local Open Scope py_scope.

(** *** Snapshots and flights *)

(** The flights the tools iterate over: [snapshot.get("flights", [])]. *)
Definition flights_of (snapshot : value) : result (list value) :=
  l <~ py_get_default snapshot "flights" (VList []) ;; py_iter l.

(** The snapshot's [flight_count] is the length of its flights. *)
Definition count_matches (snapshot : value) : Prop :=
  exists n, (l <~ py_get_default snapshot "flights" (VList []) ;; py_len l) = Ok n
            /\ py_getitem snapshot "flight_count" = Ok (VInt (Z.of_nat n)).

(** The state after one more fetch, of [url]. *)
Definition logged (s : state) (url : string) : state :=
  {| client_built := client_built s; fetches := (fetches s ++ [url])%list;
     completions := completions s; dispatched := dispatched s |}.



(** The key is missing from the flight, or there with [None]. *)
Definition absent (k : string) (d : list (string * value)) : Prop :=
  dict_get k d = None \/ dict_get k d = Some VNone.

(** The JSON number [z], decoded as an [int] or as a [float]. *)
Definition is_number (z : Z) (v : value) : Prop :=
  v = VInt z \/ v = VFloat (float_of_Z z).

(** *** Alerts *)

(** At least one rule fires on the flight. *)
Definition flagged (f : value) : bool :=
  match evaluate_rules f with
  | Ok (_ :: _, _) => true
  | _ => false
  end.

(** The alert the detector builds for a flight and its reasons. *)
Definition alert (f : value) (reasons : list string) (severity : string) : value :=
  VDict [("flight", f); ("reason", VStr (join "; " reasons)); ("severity", VStr severity)].

(** [a] is the alert of [f]: some rule fired on [f], the rules left the
    severity warning, and [a] is built from [f] and its reasons. *)
Definition alert_of (a f : value) : Prop :=
  exists reasons,
    evaluate_rules f = Ok (reasons, "warning") /\ reasons <> [] /\
    a = alert f reasons "warning".

(** An alert with its flight, the reasons of the rules that fired on it,
    joined and not empty, and the severity warning. *)
Definition reasoned_warning (a : value) : Prop :=
  exists f reasons,
    evaluate_rules f = Ok (reasons, "warning") /\
    reasons <> [] /\
    py_getitem a "flight" = Ok f /\
    py_getitem a "reason" = Ok (VStr (join "; " reasons)) /\
    join "; " reasons <> "" /\
    py_getitem a "severity" = Ok (VStr "warning") /\
    py_getitem a "severity" <> Ok (VStr "info").

(** *** Effects *)

(** [quiet c]: [c] makes no completion call, leaves the client as it is and
    dispatches no tool. *)
Definition quiet {A} (c : M A) : Prop :=
  forall s,
    completions (snd (c s)) = completions s /\
    client_built (snd (c s)) = client_built s /\
    dispatched (snd (c s)) = dispatched s.

(** [chat_quiet c]: [c] makes no completion call and leaves the client as it
    is, however it ends. *)
Definition chat_quiet {A} (c : M A) : Prop :=
  forall s,
    completions (snd (c s)) = completions s /\
    client_built (snd (c s)) = client_built s.

(** The client exists already or can be built. *)
Definition client_ready (w : world) (s : state) : Prop :=
  client_built s = true \/ get_groq_client w = Ok tt.

(** The state after one more completion call, of [req]. *)
Definition after_call (s : state) (req : request) : state :=
  {| client_built := true; fetches := fetches s;
     completions := (completions s ++ [req])%list;
     dispatched := dispatched s |}.

(** The completion service answers every request. *)
Definition service_answers (w : world) : Prop :=
  forall k req, exists m, completions_create w k req = Ok m.

(** The arguments of every tool call the service asks for are JSON. *)
Definition arguments_decode (w : world) : Prop :=
  forall k req m calls call,
    completions_create w k req = Ok m ->
    tool_calls m = Some calls ->
    In call calls ->
    exists args, json_loads w (arguments_text call) = Ok args.

(** *** The chat *)

(** The conversation a chat starts with. *)
Definition opening (system_prompt user_query : string) : list chat_message :=
  [Plain "system" system_prompt; Plain "user" user_query].

(** The completion asks for tools: [tool_calls] is neither absent nor empty. *)
Definition requests_tools (m : message) : bool :=
  match tool_calls m with
  | None | Some [] => false
  | Some (_ :: _) => true
  end.

(** The text of the refusal of a tool outside the allow-list. *)
Definition not_allowed_message (tool_name : string) : string :=
  "Tool " ++ tool_name ++ " is not allowed for this agent.".

(** The result a call is answered with once its arguments are decoded, and
    the state then: the refusal, the payload of the tool, or its fault. *)
Definition tool_outcome (w : world) (allowed_tools : option (list string))
    (call : tool_call) (args : value) (s : state) : value * state :=
  if not_allowed allowed_tools (fn_name call)
  then (error_result (not_allowed_message (fn_name call)), s)
  else
    match execute_tool w (fn_name call) args s with
    | (Ok payload, s') => (payload, s')
    | (Raise e, s') => (error_result (str_exn e), s')
    end.

(** The dispatches a call gives rise to: itself when allowed, none otherwise. *)
Definition dispatches (allowed_tools : option (list string)) (call : tool_call)
  : list string :=
  if not_allowed allowed_tools (fn_name call) then [] else [fn_name call].

(** [m] is a tool message for [call]: it carries the call's id and name. *)
Definition answers (call : tool_call) (m : chat_message) : Prop :=
  exists text, m = ToolMessage (call_id call) (fn_name call) text.

End Notions.

(** ** Scenarios: concrete worlds *)

Module Scenario.
Import Py Runtime.

Definition dq : string := String (ascii_of_nat 34) "".
Definition quoted (s : string) : string := dq ++ s ++ dq.

(** The text of the JSON object with the one member callsign: PIA293. *)
Definition callsign_arguments : string :=
  "{" ++ quoted "callsign" ++ ": " ++ quoted "PIA293" ++ "}".

(** Stand-in for [json.loads], equal to it on the three texts the scenarios
    decode: the empty object, [callsign_arguments], and a lone opening brace,
    which is not JSON. *)
Definition loads (text : string) : result value :=
  if String.eqb text "{}" then Ok (VDict [])
  else if String.eqb text callsign_arguments then Ok (VDict [("callsign", VStr "PIA293")])
  else Raise (JSONDecodeError
                "Expecting property name enclosed in double quotes: line 1 column 2 (char 1)").

Definition decimal (z : Z) : string :=
  DecimalString.NilZero.string_of_int (Z.to_int z).

(** A float as [json.dumps] writes it, for the whole numbers below 1e16 in
    magnitude, the infinities and NaN; any other float is left out as null. *)
Definition float_text (f : float) : string :=
  match Prim2SF f with
  | S754_zero s => if s then "-0.0" else "0.0"
  | S754_infinity s => if s then "-Infinity" else "Infinity"
  | S754_nan => "NaN"
  | S754_finite s m e =>
      let sign := if s then "-" else "" in
      match e with
      | Z0 => sign ++ decimal (Zpos m) ++ ".0"
      | Zpos p => sign ++ decimal (Zpos m * 2 ^ Zpos p) ++ ".0"
      | Zneg p =>
          if (Zpos m mod 2 ^ Zpos p =? 0)%Z
          then sign ++ decimal (Zpos m / 2 ^ Zpos p) ++ ".0"
          else "null"
      end
  end.

(** Stand-in for [json.dumps], equal to it on values whose strings hold no
    character that JSON escapes and whose floats [float_text] covers. *)
Fixpoint dumps (v : value) : string :=
  match v with
  | VNone => "null"
  | VBool true => "true"
  | VBool false => "false"
  | VInt z => decimal z
  | VFloat f => float_text f
  | VStr s => quoted s
  | VList l => "[" ++ join ", " (map dumps l) ++ "]"
  | VDict d =>
      "{" ++ join ", " (map (fun kv => quoted (fst kv) ++ ": " ++ dumps (snd kv)) d) ++ "}"
  end.

(** A world whose webhook always answers [payload] and whose completion
    service answers the [k]-th call with the [k]-th entry of [script]. *)
Definition world_of (payload : result value) (script : list message) : world :=
  {| GROQ_API_KEY := Some "gsk_test";
     REGION1_WEBHOOK := None;
     requests_get_json := fun _ _ => payload;
     completions_create := fun k _ =>
       match nth_error script k with
       | Some m => Ok m
       | None => Raise (APIError "Connection error.")
       end;
     json_loads := loads;
     json_dumps := dumps;
     builtin_str := dumps |}.

Definition snapshot_payload (extra : list (string * value)) (flights : list value)
  : value :=
  VDict ([("region", VStr "region1");
          ("snapshot_time", VInt 1700000000);
          ("fetched_at_iso", VStr "2023-11-14T22:13:20Z")]
         ++ extra ++ [("flights", VList flights)])%list.

Definition PIA293 : value :=
  VDict [("icao24", VStr "760a1b"); ("callsign", VStr "PIA293");
         ("origin_country", VStr "Pakistan");
         ("baro_altitude", VFloat 9000); ("geo_altitude", VFloat 9000);
         ("velocity", VFloat 50); ("vertical_rate", VFloat (-25));
         ("on_ground", VBool false)].

(** A flight with no callsign, on the ground. *)
Definition unnamed : value :=
  VDict [("icao24", VStr "4b1805"); ("callsign", VNone);
         ("origin_country", VStr "Switzerland"); ("on_ground", VBool true)].

(** Level flight at cruise speed: no rule fires. *)
Definition cruising : value :=
  VDict [("icao24", VStr "3c6444"); ("callsign", VStr "DLH9LF  ");
         ("origin_country", VStr "Germany");
         ("baro_altitude", VFloat 9000); ("geo_altitude", VFloat 9000);
         ("velocity", VFloat 200); ("vertical_rate", VFloat 5);
         ("on_ground", VBool false)].

(** A steep climb, its numbers decoded as ints. *)
Definition climbing : value :=
  VDict [("icao24", VStr "4ca7b4"); ("callsign", VStr "RYR81QD ");
         ("origin_country", VStr "Ireland");
         ("baro_altitude", VInt 3000); ("geo_altitude", VInt 3100);
         ("velocity", VInt 120); ("vertical_rate", VInt 25);
         ("on_ground", VBool false)].

(** Geometric altitude zero, barometric altitude 9000, slow. *)
Definition zero_geo : value :=
  VDict [("icao24", VStr "4bb146"); ("callsign", VStr "THY4KZ  ");
         ("origin_country", VStr "Turkey");
         ("baro_altitude", VFloat 9000); ("geo_altitude", VFloat 0);
         ("velocity", VFloat 50); ("vertical_rate", VFloat 0);
         ("on_ground", VBool false)].

(** Upstream reports five flights and lists none. *)
Definition stale_count : world :=
  world_of (Ok (snapshot_payload [("flight_count", VInt 5)] [])) [].

(** Upstream leaves the count out. *)
Definition no_count : world :=
  world_of (Ok (snapshot_payload [] [PIA293])) [].



Definition says (text : string) : message :=
  {| content := Some text; tool_calls := None |}.

Definition asks (calls : list tool_call) : message :=
  {| content := None; tool_calls := Some calls |}.

Definition lookup_call : tool_call :=
  {| call_id := "call_1";
     fn_name := "flights_get_by_callsign";
     fn_arguments := Some callsign_arguments |}.

(** The model stops in the middle of its arguments. *)
Definition malformed_call : tool_call :=
  {| call_id := "call_0";
     fn_name := "flights_get_by_callsign";
     fn_arguments := Some "{" |}.

Definition alerts_call : tool_call :=
  {| call_id := "call_2"; fn_name := "alerts_list_active"; fn_arguments := None |}.

Definition four_flights : result value :=
  Ok (snapshot_payload [("flight_count", VInt 4)]
        [cruising; PIA293; unnamed; climbing]).

(** Neither role asks for a tool. *)
Definition no_tools : world :=
  world_of four_flights
    [says "PIA293 is at 9000 m."; says "Two anomalies in region1.";
     says "Your flight is being watched."].

(** The traveler role looks the flight up; the ops role answers at once. *)
Definition traveler_looks_up : world :=
  world_of four_flights
    [asks [lookup_call]; says "PIA293 is at 9000 m, descending fast.";
     says "Two anomalies in region1."; says "Your flight is being watched."].

(** The traveler role's model asks for a tool of the ops role, then for its
    own, and the webhook is down. *)
Definition forbidden_then_failing : world :=
  world_of (Raise (RequestException "HTTPConnectionPool: Max retries exceeded"))
    [asks [alerts_call; lookup_call]; says "I could not reach the flight data."].

(** The first tool call of the answer has arguments that are not JSON. *)
Definition malformed_arguments : world :=
  world_of four_flights
    [asks [malformed_call; lookup_call]; says "unreachable"].

(** Upstream sends the flights and nothing else. *)
Definition bare : world :=
  world_of (Ok (VDict [("flights", VList [])])) [].

Definition traffic : world :=
  world_of (Ok (snapshot_payload [("flight_count", VInt 4)]
                  [cruising; PIA293; unnamed; climbing])) [].

Definition zero_geo_only : world :=
  world_of (Ok (snapshot_payload [("flight_count", VInt 1)] [zero_geo])) [].

End Scenario.

(** ** [ui_app.py]

    The page is a script that Streamlit runs again on every interaction; the
    blocks under its buttons are modelled, each as a handler that appends to
    what the page shows.  What was shown before an exception stays shown. *)

Module Ui.
Import Py Runtime.
Local Open Scope py_scope.

(** A piece of the page: [st.markdown], [st.write], [st.json], [st.info],
    [st.success] and [st.dataframe]. *)
Inductive element : Type :=
| Markdown (text : string)
| Write (text : string)
| Json (v : value)
| Info (text : string)
| Success (text : string)
| Dataframe (rows : list value).

(** Handlers: the page so far and the state in; the outcome, the page and the
    state out. *)
Definition U (A : Type) : Type :=
  list element -> state -> result A * list element * state.

Definition show (e : element) : U unit :=
  fun page s => (Ok tt, (page ++ [e])%list, s).

(** A call into [server.py] or [agents.py]. *)
Definition call {A} (c : M A) : U A :=
  fun page s => let (r, s') := c s in (r, page, s').

(** An expression of the script. *)
Definition eval {A} (r : result A) : U A :=
  fun page s => (r, page, s).

Definition done : U unit := fun page s => (Ok tt, page, s).

Definition and_then {A B} (c : U A) (k : A -> U B) : U B :=
  fun page s =>
    match c page s with
    | (Ok a, page', s') => k a page' s'
    | (Raise e, page', s') => (Raise e, page', s')
    end.

Notation "x <-- c ;; k" := (and_then c (fun x => k))
  (at level 61, c at next level, right associativity) : py_scope.

(** [(f.get("callsign") or "").strip()]: trimmed, in the case it came in. *)
Definition shown_callsign (f : value) : result value :=
  c <~ py_get f "callsign" ;;
  cs <~ py_strip (py_or c (VStr "")) ;;
  Ok (VStr cs).

(** [f.get("geo_altitude") or f.get("baro_altitude")] *)
Definition shown_altitude (f : value) : result value :=
  g <~ py_get f "geo_altitude" ;;
  b <~ py_get f "baro_altitude" ;;
  Ok (py_or g b).

(** The row of one flight in the snapshot table. *)
Definition flight_row (f : value) : result value :=
  callsign <~ shown_callsign f ;;
  icao24 <~ py_get f "icao24" ;;
  country <~ py_get f "origin_country" ;;
  altitude_m <~ shown_altitude f ;;
  speed_mps <~ py_get f "velocity" ;;
  on_ground <~ py_get f "on_ground" ;;
  Ok (VDict [("callsign", callsign); ("icao24", icao24); ("country", country);
             ("altitude_m", altitude_m); ("speed_mps", speed_mps);
             ("on_ground", on_ground)]).

(** [for f in flights: table_rows.append({...})] *)
Fixpoint table_rows (rows : list value) (flights : list value)
  : result (list value) :=
  match flights with
  | [] => Ok rows
  | f :: rest =>
      row <~ flight_row f ;;
      table_rows (rows ++ [row])%list rest
  end.

(** The row of one alert in the anomalies table. *)
Definition alert_row (a : value) : result value :=
  f <~ Server.py_getitem a "flight" ;;
  callsign <~ shown_callsign f ;;
  icao24 <~ py_get f "icao24" ;;
  altitude_m <~ shown_altitude f ;;
  speed_mps <~ py_get f "velocity" ;;
  vertical_rate <~ py_get f "vertical_rate" ;;
  reason <~ Server.py_getitem a "reason" ;;
  severity <~ Server.py_getitem a "severity" ;;
  Ok (VDict [("callsign", callsign); ("icao24", icao24);
             ("altitude_m", altitude_m); ("speed_mps", speed_mps);
             ("vertical_rate", vertical_rate);
             ("reason", reason); ("severity", severity)]).

(** [for a in alert_result["alerts"]: rows.append({...})] *)
Fixpoint alert_rows (rows : list value) (alerts : list value)
  : result (list value) :=
  match alerts with
  | [] => Ok rows
  | a :: rest =>
      row <~ alert_row a ;;
      alert_rows (rows ++ [row])%list rest
  end.

(** [v == 0] *)
Definition py_eq_zero (v : value) : bool :=
  match v with
  | VBool b => negb b
  | VInt z => (z =? 0)%Z
  | VFloat f => PrimFloat.eqb f 0%float
  | _ => false
  end.

(** Traveler view, "Fetch current flight data (tools only)". *)
Definition fetch_flight_data (w : world) (callsign : string) : U unit :=
  result <-- call (Server.flights_get_by_callsign w (VStr callsign) (VStr "region1")) ;;
  _ <-- show (Write "Tool result:") ;;
  show (Json result).

(** Traveler view, "Ask Traveler Agent". *)
Definition ask_traveler (w : world) (callsign passenger_question : string) : U unit :=
  let q :=
    "My flight " ++ callsign ++ " is in region1. "
    ++ passenger_question ++ " Please use tools if needed." in
  answer <-- call (Agents.traveler_agent w q) ;;
  _ <-- show (Markdown "**Traveler agent answer:**") ;;
  show (Write answer).

(** Traveler view, "Ask Traveler + Ops (coordinated)". *)
Definition ask_traveler_and_ops (w : world) (callsign passenger_question : string)
  : U unit :=
  answer <-- call (Agents.traveler_with_ops w callsign passenger_question) ;;
  _ <-- show (Markdown "**Coordinated answer (Traveler + Ops):**") ;;
  show (Write answer).

(** Ops view, "Fetch latest snapshot". *)
Definition fetch_latest_snapshot (w : world) (region : string) : U unit :=
  snapshot <-- call (Server.flights_list_region_snapshot w (VStr region)) ;;
  _ <-- show (Markdown "**Region summary**") ;;
  line <-- eval (r <~ Server.py_getitem snapshot "region" ;;
                 t <~ Server.py_getitem snapshot "snapshot_time" ;;
                 n <~ Server.py_getitem snapshot "flight_count" ;;
                 Ok ("Region: `" ++ py_str w r ++ "`, "
                     ++ "snapshot time: `" ++ py_str w t ++ "`, "
                     ++ "flight count: `" ++ py_str w n ++ "`")) ;;
  _ <-- show (Write line) ;;
  flights <-- eval (py_get_default snapshot "flights" (VList [])) ;;
  if truthy flights then
    rows <-- eval (l <~ py_iter flights ;; table_rows [] l) ;;
    show (Dataframe rows)
  else show (Info "No flights in snapshot.").

(** Ops view, "Analyze anomalies"; [sitrep] is the button inside the block,
    "Ask Ops agent for SITREP", whose answer the block does not display. *)
Definition analyze_anomalies (w : world) (region : string) (sitrep : bool) : U unit :=
  alert_result <-- call (Server.alerts_list_active w (VStr region)) ;;
  _ <-- show (Markdown "**Anomalies detected**") ;;
  line <-- eval (r <~ Server.py_getitem alert_result "region" ;;
                 n <~ Server.py_getitem alert_result "alert_count" ;;
                 Ok ("Region: `" ++ py_str w r ++ "`, "
                     ++ "Alerts: `" ++ py_str w n ++ "`")) ;;
  _ <-- show (Write line) ;;
  count <-- eval (Server.py_getitem alert_result "alert_count") ;;
  _ <-- (if py_eq_zero count then
           show (Success "No active anomalies based on simple rules.")
         else
           rows <-- eval (alerts <~ Server.py_getitem alert_result "alerts" ;;
                          l <~ py_iter alerts ;;
                          alert_rows [] l) ;;
           show (Dataframe rows)) ;;
  if sitrep then
    answer <-- call (Agents.ops_agent w
                       ("Give me a concise situation report for this region. "
                        ++ "Summarize traffic levels and any anomalies, and highlight "
                        ++ "the most critical flight.")) ;;
    show (Markdown "**Ops agent answer:**")
  else done.

End Ui.

(** ** Further notions and scenarios *)

Module MoreNotions.
Import Py Runtime Server Agents Notions.
Local Open Scope py_scope.

(** The URL the fetcher asks for region1: the environment's, else the default. *)
Definition region1_url (w : world) : string :=
  match REGION1_WEBHOOK w with
  | Some url => url
  | None => "http://localhost:5678/webhook/latest-region1"
  end.

(** The message of the fetcher for a region it does not know. *)
Definition unknown_region (r : string) : exn :=
  ValueError ("Unknown region '" ++ r ++ "'. Known regions: region1").



(** A local of the detector that holds the integer [z]: an [int], or the
    default [0.0] that stands for a missing, null or zero field. *)
Definition holds_int (z : Z) (v : value) : Prop :=
  v = VInt z \/ (z = 0%Z /\ v = VFloat 0).

(** The state after one more dispatch. *)
Definition dispatched_once (s : state) (name : string) (arguments : value) : state :=
  {| client_built := client_built s; fetches := fetches s;
     completions := completions s;
     dispatched := (dispatched s ++ [(name, arguments)])%list |}.

(** The names of the registered tools. *)
Definition registered : list string := map tool_name TOOLS.

(** The parameters of the implementation of a registered tool. *)
Definition parameters_of (name : string) : list string :=
  if String.eqb name "flights_get_by_callsign" then ["callsign"; "region"]
  else ["region"].

(** [region] as the call binds it: the keyword, else the default. *)
Definition region_of (kw : list (string * value)) : value :=
  match dict_get "region" kw with
  | Some r => r
  | None => VStr "region1"
  end.

(** What a computation adds to the logs of dispatches and fetches: some
    dispatches, all of tools the allow-list admits, and at most as many
    fetches. *)
Definition tool_effects {A} (allowed_tools : option (list string)) (c : M A) : Prop :=
  forall s,
    exists new_dispatches new_fetches,
      dispatched (snd (c s)) = (dispatched s ++ new_dispatches)%list /\
      fetches (snd (c s)) = (fetches s ++ new_fetches)%list /\
      List.length new_fetches <= List.length new_dispatches /\
      Forall (fun d => not_allowed allowed_tools (fst d) = false) new_dispatches.

(** A computation that fetches at most once and dispatches nothing. *)
Definition fetches_at_most_once {A} (c : M A) : Prop :=
  forall s,
    dispatched (snd (c s)) = dispatched s /\
    exists new_fetches,
      fetches (snd (c s)) = (fetches s ++ new_fetches)%list /\
      List.length new_fetches <= 1.

(** The questions the orchestrator puts to the two roles, and the prompt of
    its closing call. *)
Definition base_question (callsign passenger_question : string) : string :=
  "My flight " ++ callsign ++ " is in region1. " ++ passenger_question ++ " "
  ++ "Please use tools to check this specific flight.".

Definition ops_prompt (callsign : string) : string :=
  "Consider flight " ++ callsign ++ " in region1. "
  ++ "Give a short situation report focusing on nearby anomalies "
  ++ "and anything that could worry the passenger.".

Definition synthesis (callsign passenger_question traveler_reply ops_reply : string)
  : list chat_message :=
  [Plain "system"
     ("You are a coordinator between a traveler support agent and "
      ++ "an operations agent. You will see both of their messages and "
      ++ "must produce ONE clear answer for the passenger. "
      ++ "Reassure them when appropriate, but do not hide serious issues.");
   Plain "user"
     ("Passenger question: " ++ passenger_question ++ nl
      ++ "Flight: " ++ callsign ++ nl ++ nl
      ++ "Traveler agent said:" ++ nl ++ traveler_reply ++ nl ++ nl
      ++ "Ops agent said:" ++ nl ++ ops_reply ++ nl ++ nl
      ++ "Now give a final answer for the passenger.")].

(** [row] is the table row of the alert of the flagged flight [f]: built
    from that alert, with its joined reasons and the severity warning. *)
Definition row_of_alert (row f : value) : Prop :=
  exists reasons,
    evaluate_rules f = Ok (reasons, "warning") /\
    Ui.alert_row (alert f reasons "warning") = Ok row /\
    py_getitem row "reason" = Ok (VStr (join "; " reasons)) /\
    py_getitem row "severity" = Ok (VStr "warning").

(** [row] is the table row of the flight [f]. *)
Definition row_of_flight (row f : value) : Prop := Ui.flight_row f = Ok row.

End MoreNotions.

Module MoreScenarios.
Import Py Runtime Scenario.

(** Upstream sends null for the flights, with a count of its own. *)
Definition null_flights : world :=
  world_of (Ok (VDict [("region", VStr "region1");
                       ("snapshot_time", VInt 1700000000);
                       ("fetched_at_iso", VStr "2023-11-14T22:13:20Z");
                       ("flight_count", VInt 0);
                       ("flights", VNone)])) [].

(** The webhook is down. *)
Definition webhook_down : world :=
  world_of (Raise (RequestException "HTTPConnectionPool: Max retries exceeded")) [].

(** An entry that is no flight at all follows PIA293. *)
Definition junk_after_match : world :=
  world_of (Ok (snapshot_payload [("flight_count", VInt 3)]
                  [cruising; PIA293; VStr "junk"])) [].

(** Nothing in the air over the region. *)
Definition quiet_sky : world :=
  world_of (Ok (snapshot_payload [("flight_count", VInt 2)] [cruising; unnamed])) [].

(** No API key in the environment. *)
Definition no_key : world :=
  {| GROQ_API_KEY := None;
     REGION1_WEBHOOK := Some "http://n8n.internal:5678/webhook/latest-region1";
     requests_get_json := fun _ _ => four_flights;
     completions_create := fun _ _ => Ok (says "never asked");
     json_loads := loads;
     json_dumps := dumps;
     builtin_str := dumps |}.

(** The model answers at once. *)
Definition answers_directly : world :=
  world_of four_flights [says "PIA293 is fine."].

(** The service is unreachable. *)
Definition service_down : world := world_of four_flights [].

(** The ops role looks at the alerts, the traveler role answers at once. *)
Definition ops_checks_alerts : world :=
  world_of four_flights
    [says "PIA293 is at 9000 m."; asks [alerts_call];
     says "Two anomalies in region1."; says "Your flight is being watched."].

End MoreScenarios.

(** ** Properties of [server.py] *)

Module ServerProps.
Import Py Runtime Server Notions.
Local Open Scope py_scope.

(** *** Dictionaries *)

Lemma dict_get_app k d1 d2 :
  dict_get k (d1 ++ d2) =
  match dict_get k d1 with Some v => Some v | None => dict_get k d2 end.
Proof.
  induction d1 as [|[k' v'] d1 IH]; simpl; [reflexivity|].
  destruct (String.eqb k k'); [reflexivity | exact IH].
Qed.

Lemma dict_get_setdefault_same k v d :
  dict_get k (dict_setdefault k v d) =
  Some (match dict_get k d with Some x => x | None => v end).
Proof.
  unfold dict_setdefault. destruct (dict_get k d) eqn:E.
  - exact E.
  - rewrite dict_get_app, E. simpl. now rewrite String.eqb_refl.
Qed.

Lemma dict_get_setdefault_other k k' v d :
  k <> k' -> dict_get k (dict_setdefault k' v d) = dict_get k d.
Proof.
  intros N. unfold dict_setdefault. destruct (dict_get k' d); [reflexivity|].
  rewrite dict_get_app. destruct (dict_get k d); [reflexivity|].
  simpl. apply String.eqb_neq in N. now rewrite N.
Qed.

(** *** The fetcher *)

(** A fetch that returns went through every step of the function. *)
Lemma fetch_snapshot_inv w region s snap s' :
  _fetch_snapshot w region s = (Ok snap, s') ->
  exists r url d n,
    region = VStr r /\
    assoc r (REGION_WEBHOOKS w) = Some url /\
    requests_get_json w (List.length (fetches s)) url = Ok (VDict d) /\
    (l <~ py_get_default (VDict (dict_setdefault "region" region d)) "flights" (VList []) ;;
     py_len l) = Ok n /\
    snap = VDict (dict_setdefault "flight_count" (VInt (Z.of_nat n))
                    (dict_setdefault "region" region d)) /\
    s' = logged s url.
Proof.
  unfold _fetch_snapshot. intros H.
  destruct (webhook_of w region) as [[url|]|e] eqn:W; try discriminate.
  destruct region; simpl in W; try discriminate. injection W as W.
  unfold bind, requests_get in H.
  destruct (requests_get_json w (List.length (fetches s)) url) as [data|e] eqn:G;
    try discriminate.
  destruct data; try discriminate.
  unfold lift in H.
  match type of H with context [rbind ?a ?b] => destruct (rbind a b) as [n|e] eqn:L end;
    try discriminate.
  injection H as <- <-.
  exists s0, url, d, n. repeat split; auto.
Qed.

Lemma flights_entry_setdefault k v d :
  k <> "flights" ->
  py_get_default (VDict (dict_setdefault k v d)) "flights" (VList []) =
  py_get_default (VDict d) "flights" (VList []).
Proof.
  intros N. simpl. rewrite dict_get_setdefault_other; [reflexivity|].
  intros E. apply N. now symmetry.
Qed.

(** C1, as amended: the fetcher fills [flight_count] in only when the upstream
    payload has none.  Then the returned snapshot's [flight_count] is the
    length of its flights (0 when there is no flights entry); a
    [flight_count] that upstream supplies is returned as it came.  The Region
    Snapshot tool returns the fetcher's snapshot unchanged. *)
Theorem fetch_snapshot_flight_count w region s snap s' :
  _fetch_snapshot w region s = (Ok snap, s') ->
  flights_list_region_snapshot w region s = (Ok snap, s') /\
  exists url payload,
    requests_get_json w (List.length (fetches s)) url = Ok (VDict payload) /\
    (dict_get "flight_count" payload = None -> count_matches snap) /\
    (forall c, dict_get "flight_count" payload = Some c ->
               py_getitem snap "flight_count" = Ok c).
Proof.
  intros H. split.
  - unfold flights_list_region_snapshot, bind. now rewrite H.
  - apply fetch_snapshot_inv in H.
    destruct H as (r & url & d & n & -> & _ & G & L & -> & _).
    exists url, d. split; [exact G|]. split.
    + intros A. exists n. split.
      * rewrite flights_entry_setdefault by discriminate. exact L.
      * simpl. unfold dict_getitem. rewrite dict_get_setdefault_same.
        rewrite dict_get_setdefault_other by discriminate. now rewrite A.
    + intros c A. simpl. unfold dict_getitem. rewrite dict_get_setdefault_same.
      rewrite dict_get_setdefault_other by discriminate. now rewrite A.
Qed.

(** The amended C1 at work: upstream leaves the count out, and the fetcher
    counts the one flight of the payload. *)
Lemma fetch_snapshot_flight_count_witness :
  exists snap s',
    flights_list_region_snapshot Scenario.no_count (VStr "region1") initial
    = (Ok snap, s')
    /\ count_matches snap.
Proof.
  destruct (fetch_snapshot_flight_count Scenario.no_count (VStr "region1") initial
              _ _ eq_refl) as (T & url & payload & G & A & _).
  eexists. eexists. split; [exact T|].
  apply A. vm_compute in G. injection G as <-. reflexivity.
Defined.

(** C1 as stated fails: upstream says five flights and lists none, and the
    fetcher returns that snapshot as it came. *)
Lemma stale_count_is_passed_through :
  exists snap s',
    _fetch_snapshot Scenario.stale_count (VStr "region1") initial = (Ok snap, s')
    /\ py_getitem snap "flight_count" = Ok (VInt 5)
    /\ flights_of snap = Ok []
    /\ ~ count_matches snap.
Proof.
  eexists. eexists. split; [reflexivity|].
  split; [reflexivity|]. split; [reflexivity|].
  intros (n & L & C). vm_compute in L. vm_compute in C.
  injection L as <-. discriminate C.
Qed.

(** *** Text *)






(** *** Well-typed flights and snapshots *)

Lemma Flight_callsign f :
  Flight f = true ->
  exists d, f = VDict d /\
    (dict_get "callsign" d = None \/ dict_get "callsign" d = Some VNone
     \/ exists c, dict_get "callsign" d = Some (VStr c)).
Proof.
  destruct f as [| | | | | |d]; try discriminate. intros H.
  exists d. split; [reflexivity|].
  unfold Flight in H. rewrite forallb_forall in H.
  specialize (H ("callsign", Optional is_str)). unfold key_of in H. simpl in H.
  destruct (dict_get "callsign" d) as [[]|]; eauto;
    (discriminate H; tauto) || (exfalso; assert (false = true) by (apply H; tauto);
                                 discriminate).
Qed.


Lemma Snapshot_inv snap :
  Snapshot snap = true ->
  exists d r t i flights,
    snap = VDict d /\
    dict_get "region" d = Some r /\
    dict_get "snapshot_time" d = Some t /\
    dict_get "fetched_at_iso" d = Some i /\
    dict_get "flights" d = Some (VList flights) /\
    forallb Flight flights = true.
Proof.
  destruct snap as [| | | | | |d]; try discriminate. intros H.
  unfold Snapshot in H. simpl in H. unfold key_of in H. simpl in H.
  destruct (dict_get "region" d) as [r|] eqn:R; [|discriminate].
  destruct (dict_get "snapshot_time" d) as [t|] eqn:ST;
    [|now rewrite andb_false_r in H].
  destruct (dict_get "fetched_at_iso" d) as [i|] eqn:I;
    [|now rewrite !andb_false_r in H].
  destruct (dict_get "flights" d) as [[| | | | |l|]|] eqn:L;
    try (simpl in H; now rewrite !andb_false_r in H).
  exists d, r, t, i, l. repeat split; auto.
  do 4 (apply andb_prop in H; destruct H as [_ H]).
  rewrite andb_true_r in H. exact H.
Qed.

Lemma Snapshot_flights snap flights :
  Snapshot snap = true -> flights_of snap = Ok flights ->
  forallb Flight flights = true.
Proof.
  intros T F. destruct (Snapshot_inv snap T) as (d & r & t & i & l & -> & _ & _ & _ & L & A).
  unfold flights_of in F. simpl in F. rewrite L in F. simpl in F.
  injection F as <-. exact A.
Qed.

(** *** Callsign lookup *)




Lemma Flight_not_None f : Flight f = true -> exists d, f = VDict d.
Proof. destruct f; try discriminate. eauto. Qed.

(** The three lookup properties share their setting: the fetcher has
    returned a snapshot, and the snapshot has the shape of [Snapshot]. *)
Section Lookup.

Variable w : world.
Variables (region : value) (s s' : state) (snap : value).
Hypothesis fetched : _fetch_snapshot w region s = (Ok snap, s').
Hypothesis typed : Snapshot snap = true.





End Lookup.


(** The shape of the snapshot matters to C8: the fetcher fills in the region
    and the count only, so on a payload without [snapshot_time] the lookup
    ends on the [KeyError] of building its result. *)
Example lookup_needs_the_snapshot_fields :
  fst (flights_get_by_callsign Scenario.bare (VStr "PIA293") (VStr "region1") initial)
  = Raise (KeyError "snapshot_time").
Proof. reflexivity. Qed.




(** *** Anomaly detection *)

Ltac rules_step H :=
  match type of H with
  | context [rbind ?r _] =>
      destruct r as [?|?] eqn:?; cbn [rbind] in H; try discriminate H
  | context [if ?b then _ else _] =>
      destruct b eqn:?; cbn beta iota in H; try discriminate H
  end.

(** The six outcomes of the rules on one flight. *)
Lemma evaluate_rules_cases f reasons severity :
  evaluate_rules f = Ok (reasons, severity) ->
  (reasons = [] /\ severity = "info") \/
  (severity = "warning" /\
   (reasons = [low_speed] \/ reasons = [high_descent] \/ reasons = [high_climb]
    \/ reasons = [low_speed; high_descent] \/ reasons = [low_speed; high_climb])).
Proof.
  unfold evaluate_rules. intros H.
  repeat rules_step H; injection H as <- <-; simpl; tauto.
Qed.

Lemma flagged_reasons f reasons severity :
  evaluate_rules f = Ok (reasons, severity) ->
  flagged f = negb (match reasons with [] => true | _ => false end).
Proof. unfold flagged. intros ->. destruct reasons; reflexivity. Qed.

Lemma alerts_loop_spec flights :
  forall acc out,
    alerts_loop acc flights = Ok out ->
    exists new, out = (acc ++ new)%list /\
                Forall2 alert_of new (filter flagged flights).
Proof.
  induction flights as [|f rest IH]; simpl; intros acc out H.
  - injection H as <-. exists []. split; [now rewrite app_nil_r | constructor].
  - unfold alert_step in H.
    destruct (evaluate_rules f) as [[reasons severity]|e] eqn:E;
      cbn [rbind] in H; [|discriminate H].
    rewrite (flagged_reasons _ _ _ E).
    destruct (evaluate_rules_cases _ _ _ E) as [[-> ->] | [-> C]].
    + cbn [rbind] in H. apply IH in H. exact H.
    + assert (N : reasons <> []) by (intros ->; intuition discriminate).
      destruct reasons as [|r0 rs]; [contradiction|].
      cbn [rbind] in H. apply IH in H. destruct H as (new & -> & F).
      eexists (_ :: new). rewrite <- app_assoc. split; [reflexivity|].
      simpl. constructor; [|exact F].
      exists (r0 :: rs). repeat split; auto.
Qed.

(** A run of the detector that returns went through every step. *)
Lemma alerts_list_active_inv w region s r s' :
  alerts_list_active w region s = (Ok r, s') ->
  exists snap flights alerts rg t i,
    _fetch_snapshot w region s = (Ok snap, s') /\
    flights_of snap = Ok flights /\
    alerts_loop [] flights = Ok alerts /\
    r = VDict [("region", rg); ("snapshot_time", t); ("fetched_at_iso", i);
               ("alert_count", VInt (Z.of_nat (List.length alerts)));
               ("alerts", VList alerts)].
Proof.
  unfold alerts_list_active, bind, lift. intros H.
  destruct (_fetch_snapshot w region s) as [[snap|e] s1] eqn:F; [|discriminate H].
  fold (flights_of snap) in H.
  destruct (flights_of snap) as [flights|e] eqn:L; cbn [rbind] in H;
    [|discriminate H].
  destruct (alerts_loop [] flights) as [alerts|e] eqn:A; cbn [rbind] in H;
    [|discriminate H].
  repeat rules_step H. injection H as <- <-.
  exists snap, flights, alerts. eauto 10.
Qed.

(** C4: every alert of the detector has a reason that is not empty, made of
    the reasons of at least one rule that fired, and the severity warning;
    no alert has the severity info. *)
Theorem alerts_have_reason_and_warning w region s r s' :
  alerts_list_active w region s = (Ok r, s') ->
  exists alerts,
    py_getitem r "alerts" = Ok (VList alerts) /\
    Forall reasoned_warning alerts.
Proof.
  intros H.
  destruct (alerts_list_active_inv _ _ _ _ _ H)
    as (snap & flights & alerts & rg & t & i & _ & _ & A & ->).
  exists alerts. split; [reflexivity|].
  destruct (alerts_loop_spec _ _ _ A) as (new & -> & F). simpl. clear H A.
  induction F as [|a f l l' (reasons & E & N & ->) F IH]; [constructor|].
  constructor; [|exact IH].
  exists f, reasons. repeat split; auto; try discriminate.
  destruct (evaluate_rules_cases _ _ _ E) as [[-> _] | [_ C]]; [contradiction|].
  destruct C as [-> | [-> | [-> | [-> | ->]]]]; discriminate.
Qed.

(** C4 on a snapshot of four flights, two of them flagged. *)
Lemma alerts_have_reason_and_warning_witness :
  exists r s' a1 a2,
    alerts_list_active Scenario.traffic (VStr "region1") initial = (Ok r, s') /\
    py_getitem r "alerts" = Ok (VList [a1; a2]) /\
    reasoned_warning a1 /\ reasoned_warning a2.
Proof.
  destruct (alerts_have_reason_and_warning Scenario.traffic (VStr "region1")
              initial _ _ eq_refl) as (alerts & A & F).
  vm_compute in A. injection A as <-.
  eexists. eexists. eexists. eexists.
  split; [reflexivity|]. split; [reflexivity|].
  split; [exact (Forall_inv F) | exact (Forall_inv (Forall_inv_tail F))].
Defined.

(** C9: the count of the result is the number of its alerts, and the alerts
    are those of the flagged flights, in the order of the snapshot. *)
Theorem alert_count_and_order w region s r s' :
  alerts_list_active w region s = (Ok r, s') ->
  exists snap flights alerts,
    _fetch_snapshot w region s = (Ok snap, s') /\
    flights_of snap = Ok flights /\
    py_getitem r "alerts" = Ok (VList alerts) /\
    py_getitem r "alert_count" = Ok (VInt (Z.of_nat (List.length alerts))) /\
    Forall2 (fun a f => py_getitem a "flight" = Ok f) alerts (filter flagged flights).
Proof.
  intros H.
  destruct (alerts_list_active_inv _ _ _ _ _ H)
    as (snap & flights & alerts & rg & t & i & F & L & A & ->).
  exists snap, flights, alerts. repeat split; auto.
  destruct (alerts_loop_spec _ _ _ A) as (new & -> & F2). simpl. clear H A.
  induction F2 as [|a f l l' (reasons & _ & _ & ->) F2 IH]; constructor; auto.
Qed.

(** C9 on the four flights: the second and the fourth are flagged, and the
    two alerts come in that order. *)
Lemma alert_count_and_order_witness :
  exists r s' a1 a2,
    alerts_list_active Scenario.traffic (VStr "region1") initial = (Ok r, s') /\
    py_getitem r "alerts" = Ok (VList [a1; a2]) /\
    py_getitem r "alert_count" = Ok (VInt 2) /\
    py_getitem a1 "flight" = Ok Scenario.PIA293 /\
    py_getitem a2 "flight" = Ok Scenario.climbing.
Proof.
  destruct (alert_count_and_order Scenario.traffic (VStr "region1") initial _ _
              eq_refl) as (snap & flights & alerts & F & L & A & C & O).
  vm_compute in A. injection A as <-. vm_compute in C.
  eexists. eexists. eexists. eexists.
  split; [reflexivity|]. split; [reflexivity|]. split; [exact C|].
  split; reflexivity.
Defined.

(** *** The detector on well-typed flights *)

Lemma Flight_float d k :
  Flight (VDict d) = true ->
  In k ["velocity"; "geo_altitude"; "baro_altitude"; "vertical_rate"] ->
  match dict_get k d with
  | Some v => Optional is_float v = true
  | None => True
  end.
Proof.
  unfold Flight. rewrite forallb_forall. intros H K.
  specialize (H (k, Optional is_float)). unfold key_of in H. simpl in H.
  destruct (dict_get k d); [|trivial].
  apply H. simpl in K. intuition (subst; auto 20).
Qed.

Lemma or_zero_is_float o d :
  match o with Some v => Optional is_float v = true | None => True end ->
  is_float d = true ->
  is_float (py_or (match o with Some v => v | None => VNone end) d) = true.
Proof.
  unfold py_or. destruct o as [[]|]; simpl; intros H D; try discriminate H; auto;
    match goal with |- context [if ?b then _ else _] => destruct b end; auto.
Qed.

Lemma py_gt_float v n : is_float v = true -> exists b, py_gt v n = Ok b.
Proof. destruct v; try discriminate; simpl; eauto. Qed.

Lemma py_lt_float v n : is_float v = true -> exists b, py_lt v n = Ok b.
Proof. destruct v; try discriminate; simpl; eauto. Qed.

(** On a well-typed flight the rules never raise. *)
Lemma evaluate_rules_typed f :
  Flight f = true -> exists rs, evaluate_rules f = Ok rs.
Proof.
  intros T. destruct (Flight_not_None f T) as (d & ->).
  pose proof (Flight_float d "velocity" T ltac:(simpl; tauto)) as V.
  pose proof (Flight_float d "geo_altitude" T ltac:(simpl; tauto)) as G.
  pose proof (Flight_float d "baro_altitude" T ltac:(simpl; tauto)) as B.
  pose proof (Flight_float d "vertical_rate" T ltac:(simpl; tauto)) as R.
  unfold evaluate_rules, velocity_of, altitude_of, vertical_rate_of.
  cbn [py_get py_get_default rbind].
  pose proof (or_zero_is_float _ (VFloat 0) V eq_refl) as V'.
  pose proof (or_zero_is_float _ (VFloat 0) R eq_refl) as R'.
  pose proof (or_zero_is_float _ _ G (or_zero_is_float _ (VFloat 0) B eq_refl)) as A'.
  assert (A'' : is_float
                  (py_or (py_or match dict_get "geo_altitude" d with
                                | Some v => v | None => VNone end
                                match dict_get "baro_altitude" d with
                                | Some v => v | None => VNone end) (VFloat 0)) = true).
  { revert A'. unfold py_or.
    repeat match goal with |- context [truthy ?x] => destruct (truthy x) eqn:? end;
      auto; congruence. }
  clear A'.
  destruct (py_gt_float _ 8000%Z A'') as (b1 & ->).
  destruct (py_lt_float _ 100%Z V') as (b2 & ->).
  destruct (py_lt_float _ (-20)%Z R') as (b3 & ->).
  destruct (py_gt_float _ 20%Z R') as (b4 & ->).
  cbn [rbind]. destruct b1, b2, b3, b4; cbn [rbind]; eauto.
Qed.

(** The alerts already collected are a prefix the loop leaves alone. *)
Lemma alerts_loop_prefix flights :
  forall p acc,
    alerts_loop (p ++ acc) flights =
    rbind (alerts_loop acc flights) (fun out => Ok (p ++ out)%list).
Proof.
  induction flights as [|f rest IH]; simpl; intros p acc; [reflexivity|].
  unfold alert_step.
  destruct (evaluate_rules f) as [[reasons severity]|e]; cbn [rbind];
    [|reflexivity].
  destruct reasons as [|r0 rs]; cbn [rbind].
  - apply IH.
  - rewrite <- app_assoc. apply IH.
Qed.

Lemma alerts_loop_from flights acc :
  alerts_loop acc flights =
  rbind (alerts_loop [] flights) (fun out => Ok (acc ++ out)%list).
Proof. rewrite <- alerts_loop_prefix. now rewrite app_nil_r. Qed.

Lemma alerts_loop_app before after :
  forall acc,
    alerts_loop acc (before ++ after) =
    rbind (alerts_loop acc before) (fun mid => alerts_loop mid after).
Proof.
  induction before as [|f rest IH]; simpl; intros acc; [reflexivity|].
  destruct (alert_step acc f); cbn [rbind]; [apply IH | reflexivity].
Qed.

Lemma alerts_loop_typed flights :
  forallb Flight flights = true ->
  forall acc, exists out, alerts_loop acc flights = Ok out.
Proof.
  induction flights as [|f rest IH]; simpl; intros T acc; [eauto|].
  apply andb_prop in T. destruct T as [Tf Tr].
  unfold alert_step. destruct (evaluate_rules_typed f Tf) as ([reasons severity] & ->).
  cbn [rbind]. destruct reasons; cbn [rbind]; apply IH; exact Tr.
Qed.

(** The mutual exclusion of the two vertical-rate rules. *)
Lemma descent_excludes_climb f reasons severity :
  evaluate_rules f = Ok (reasons, severity) ->
  ~ (In high_descent reasons /\ In high_climb reasons).
Proof.
  intros E (D & C).
  destruct (evaluate_rules_cases _ _ _ E) as [[-> _] | [_ K]]; [destruct D|].
  destruct K as [-> | [-> | [-> | [-> | ->]]]]; simpl in D, C;
    intuition discriminate.
Qed.

(** C7: a flight at altitude 9000, velocity 50 and vertical rate -25 gets one
    alert, at the place of the flight among the alerts, whose reason is the
    low-speed reason and the high-descent reason joined, with the severity
    warning; and no flight has both the descent and the climb reason. *)
Theorem low_speed_and_descent w region s snap s' before f after alt v vr :
  _fetch_snapshot w region s = (Ok snap, s') ->
  Snapshot snap = true ->
  flights_of snap = Ok (before ++ f :: after)%list ->
  altitude_of f = Ok alt -> is_number 9000 alt ->
  velocity_of f = Ok v -> is_number 50 v ->
  vertical_rate_of f = Ok vr -> is_number (-25) vr ->
  (exists r earlier later,
     alerts_list_active w region s = (Ok r, s') /\
     alerts_loop [] before = Ok earlier /\
     alerts_loop [] after = Ok later /\
     py_getitem r "alerts" =
     Ok (VList (earlier
                ++ VDict [("flight", f);
                          ("reason",
                           VStr "Unusually low speed at high altitude; Very high descent rate");
                          ("severity", VStr "warning")]
                :: later)%list)) /\
  (forall g reasons severity,
     evaluate_rules g = Ok (reasons, severity) ->
     ~ (In high_descent reasons /\ In high_climb reasons)).
Proof.
  intros H T F Ha Na Hv Nv Hr Nr. split; [|exact descent_excludes_climb].
  assert (E : evaluate_rules f = Ok ([low_speed; high_descent], "warning")).
  { unfold evaluate_rules. rewrite Hv, Ha, Hr. cbn [rbind].
    destruct Na as [-> | ->], Nv as [-> | ->], Nr as [-> | ->]; reflexivity. }
  pose proof (Snapshot_flights _ _ T F) as A.
  rewrite forallb_app in A. apply andb_prop in A. destruct A as [Ab Af].
  simpl in Af. apply andb_prop in Af. destruct Af as [_ Aa].
  destruct (alerts_loop_typed before Ab []) as (earlier & Eb).
  destruct (alerts_loop_typed after Aa []) as (later & Ea).
  destruct (Snapshot_inv snap T) as (d & rg & t & i & l & -> & R & ST & I & L & _).
  eexists. exists earlier, later.
  split; [|split; [exact Eb|split; [exact Ea|]]].
  - unfold alerts_list_active, bind, lift. rewrite H.
    fold (flights_of (VDict d)). rewrite F. cbn [rbind].
    rewrite alerts_loop_app, Eb. cbn [rbind alerts_loop].
    unfold alert_step. rewrite E. cbn [rbind].
    rewrite (alerts_loop_from after (earlier ++ _)), Ea.
    cbn [rbind py_getitem]. unfold dict_getitem. rewrite R, ST, I. cbn [rbind].
    reflexivity.
  - simpl. rewrite <- app_assoc. reflexivity.
Qed.

(** C7 on the four flights: PIA293 is the second of them, and its alert is
    the first, since the cruising flight before it has none. *)
Lemma low_speed_and_descent_witness :
  exists r s' later,
    alerts_list_active Scenario.traffic (VStr "region1") initial = (Ok r, s') /\
    py_getitem r "alerts" =
    Ok (VList (VDict [("flight", Scenario.PIA293);
                      ("reason",
                       VStr "Unusually low speed at high altitude; Very high descent rate");
                      ("severity", VStr "warning")]
               :: later)).
Proof.
  destruct (low_speed_and_descent Scenario.traffic (VStr "region1") initial _ _
              [Scenario.cruising] Scenario.PIA293
              [Scenario.unnamed; Scenario.climbing]
              (VFloat 9000) (VFloat 50) (VFloat (-25))
              eq_refl eq_refl eq_refl
              eq_refl (or_intror eq_refl) eq_refl (or_intror eq_refl)
              eq_refl (or_intror eq_refl))
    as ((r & earlier & later & E & Eb & Ea & A) & _).
  vm_compute in Eb. injection Eb as <-.
  exists r. eexists. exists later. split; [exact E | exact A].
Defined.

(** *** Defaults of the detector *)

(** A missing or null velocity, vertical rate or altitude is evaluated as 0. *)
Lemma missing_velocity_is_zero d :
  absent "velocity" d -> velocity_of (VDict d) = Ok (VFloat 0).
Proof. unfold velocity_of. simpl. intros [-> | ->]; reflexivity. Qed.

Lemma missing_vertical_rate_is_zero d :
  absent "vertical_rate" d -> vertical_rate_of (VDict d) = Ok (VFloat 0).
Proof. unfold vertical_rate_of. simpl. intros [-> | ->]; reflexivity. Qed.

Lemma missing_altitude_is_zero d :
  absent "geo_altitude" d -> absent "baro_altitude" d ->
  altitude_of (VDict d) = Ok (VFloat 0).
Proof.
  unfold altitude_of. simpl. intros [-> | ->] [-> | ->]; reflexivity.
Qed.

(** With all three missing no rule fires. *)
Lemma missing_fields_are_nominal d :
  absent "velocity" d -> absent "vertical_rate" d ->
  absent "geo_altitude" d -> absent "baro_altitude" d ->
  evaluate_rules (VDict d) = Ok ([], "info").
Proof.
  intros V R G B. unfold evaluate_rules.
  rewrite (missing_velocity_is_zero d V), (missing_vertical_rate_is_zero d R),
    (missing_altitude_is_zero d G B).
  reflexivity.
Qed.

(** The geometric altitude is the one used when it is there and is true as a
    Python value, which a zero is not. *)
Lemma geo_altitude_is_used d g :
  dict_get "geo_altitude" d = Some g -> truthy g = true ->
  altitude_of (VDict d) = Ok g.
Proof.
  unfold altitude_of, py_or. simpl. intros -> T. simpl. now rewrite T, T.
Qed.

(** A geometric altitude that is false as a Python value yields to the
    barometric one. *)
Lemma false_geo_altitude_yields_to_baro d g b :
  dict_get "geo_altitude" d = Some g -> truthy g = false ->
  dict_get "baro_altitude" d = Some b -> truthy b = true ->
  altitude_of (VDict d) = Ok b.
Proof.
  unfold altitude_of, py_or. simpl. intros -> G -> B. simpl. now rewrite G, B.
Qed.

(** C5, the code at the failing input: the flight has both altitudes, the
    geometric one 0 and the barometric one 9000, and is slow.  The detector
    evaluates the low-speed rule on 9000, the barometric altitude, and raises
    the alert, which the geometric altitude would not. *)
Theorem zero_geo_altitude_is_skipped :
  py_get Scenario.zero_geo "geo_altitude" = Ok (VFloat 0) /\
  py_get Scenario.zero_geo "baro_altitude" = Ok (VFloat 9000) /\
  altitude_of Scenario.zero_geo = Ok (VFloat 9000) /\
  py_gt (VFloat 0) 8000 = Ok false /\
  evaluate_rules Scenario.zero_geo = Ok ([low_speed], "warning") /\
  Snapshot (Scenario.snapshot_payload [("flight_count", VInt 1)] [Scenario.zero_geo])
  = true /\
  exists r s',
    alerts_list_active Scenario.zero_geo_only (VStr "region1") initial = (Ok r, s') /\
    py_getitem r "alerts" = Ok (VList [alert Scenario.zero_geo [low_speed] "warning"]).
Proof.
  repeat (split; [reflexivity|]).
  eexists. eexists. split; reflexivity.
Qed.

End ServerProps.

(** ** Properties of [agents.py] *)

Module AgentsProps.
Import Py Runtime Server Agents Notions.
Local Open Scope py_scope.

(** *** What a computation leaves alone *)

Lemma quiet_lift {A} (r : result A) : quiet (lift r).
Proof. intros s. simpl. auto. Qed.

Lemma quiet_ret {A} (a : A) : quiet (ret a).
Proof. intros s. simpl. auto. Qed.

Lemma quiet_raise {A} (e : exn) : quiet (@raise A e).
Proof. intros s. simpl. auto. Qed.

Lemma quiet_bind {A B} (c : M A) (k : A -> M B) :
  quiet c -> (forall a, quiet (k a)) -> quiet (bind c k).
Proof.
  intros Hc Hk s. unfold bind. specialize (Hc s).
  destruct (c s) as [[a|e] s1]; simpl in *; [|exact Hc].
  destruct Hc as (C1 & C2 & C3). destruct (Hk a s1) as (K1 & K2 & K3).
  rewrite K1, K2, K3. auto.
Qed.

Lemma quiet_fetch w region : quiet (_fetch_snapshot w region).
Proof.
  unfold _fetch_snapshot.
  destruct (webhook_of w region) as [[url|]|e]; try apply quiet_raise.
  apply quiet_bind.
  - intros s. simpl. auto.
  - intros data. destruct data; try apply quiet_raise.
    apply quiet_bind; [apply quiet_lift | intros; apply quiet_ret].
Qed.

Lemma quiet_snapshot w region : quiet (flights_list_region_snapshot w region).
Proof.
  apply quiet_bind; [apply quiet_fetch | intros; apply quiet_ret].
Qed.

Lemma quiet_lookup w callsign region :
  quiet (flights_get_by_callsign w callsign region).
Proof.
  apply quiet_bind; [apply quiet_fetch | intros; apply quiet_lift].
Qed.

Lemma quiet_alerts w region : quiet (alerts_list_active w region).
Proof.
  apply quiet_bind; [apply quiet_fetch | intros; apply quiet_lift].
Qed.

(** *** Dispatch *)

(** A dispatch is logged once, whatever comes of it, and touches neither the
    client nor the completion log. *)
Lemma execute_tool_effects w name arguments s :
  completions (snd (execute_tool w name arguments s)) = completions s /\
  client_built (snd (execute_tool w name arguments s)) = client_built s /\
  dispatched (snd (execute_tool w name arguments s))
  = (dispatched s ++ [(name, arguments)])%list.
Proof.
  unfold execute_tool. unfold bind at 1. unfold log_dispatch at 1.
  set (s1 := {| client_built := client_built s; fetches := fetches s;
                completions := completions s;
                dispatched := (dispatched s ++ [(name, arguments)])%list |}).
  assert (Q : forall c : M value, quiet c ->
              completions (snd (c s1)) = completions s /\
              client_built (snd (c s1)) = client_built s /\
              dispatched (snd (c s1)) = (dispatched s ++ [(name, arguments)])%list).
  { intros c Hc. destruct (Hc s1) as (C1 & C2 & C3). rewrite C1, C2, C3. auto. }
  repeat match goal with
         | |- context [if ?b then _ else _] => destruct b
         end;
    apply Q;
    repeat (apply quiet_bind; [apply quiet_lift | intros]);
    auto using quiet_snapshot, quiet_lookup, quiet_alerts, quiet_raise.
Qed.

(** *** The client and the completion calls *)

Lemma create_ready w req s :
  client_ready w s ->
  chat_completions_create w req s
  = (completions_create w (List.length (completions s)) req, after_call s req).
Proof.
  unfold chat_completions_create, bind, client, after_call.
  intros [B | G].
  - rewrite B. simpl. now rewrite B.
  - destruct (client_built s) eqn:B; simpl; [now rewrite B|].
    rewrite G. reflexivity.
Qed.

(** A completion call that returns was made, logged, and answered. *)
Lemma create_inv w req s m s' :
  chat_completions_create w req s = (Ok m, s') ->
  client_ready w s /\
  completions_create w (List.length (completions s)) req = Ok m /\
  s' = after_call s req.
Proof.
  intros H.
  assert (R : client_ready w s).
  { unfold chat_completions_create, bind, client in H. unfold client_ready.
    destruct (client_built s); [now left|].
    destruct (get_groq_client w) as [[]|e]; [now right | discriminate H]. }
  rewrite (create_ready w req s R) in H. injection H as H1 H2. auto.
Qed.

(** *** One tool call *)

Lemma run_tool_call_decoded w allowed_tools call args s :
  json_loads w (arguments_text call) = Ok args ->
  run_tool_call w allowed_tools call s =
  (Ok (ToolMessage (call_id call) (fn_name call)
         (json_dumps w (fst (tool_outcome w allowed_tools call args s)))),
   snd (tool_outcome w allowed_tools call args s)).
Proof.
  intros D. unfold run_tool_call, tool_outcome, bind, lift, try_except.
  rewrite D. unfold not_allowed_message.
  destruct (not_allowed allowed_tools (fn_name call)); [reflexivity|].
  destruct (execute_tool w (fn_name call) args s) as [[payload|e] s1]; reflexivity.
Qed.

(** Arguments that do not decode end the call, and with it the loop, before
    anything is dispatched or appended. *)
Lemma run_tool_call_undecoded w allowed_tools call e s :
  json_loads w (arguments_text call) = Raise e ->
  run_tool_call w allowed_tools call s = (Raise e, s).
Proof.
  intros D. unfold run_tool_call, bind, lift. now rewrite D.
Qed.

(** A tool outside the allow-list is not dispatched: the state is untouched
    and the result is the refusal. *)
Lemma tool_outcome_refused w allowed_tools call args s :
  not_allowed allowed_tools (fn_name call) = true ->
  tool_outcome w allowed_tools call args s
  = (error_result (not_allowed_message (fn_name call)), s).
Proof. unfold tool_outcome. now intros ->. Qed.

(** An allowed tool is dispatched once, and a fault of the dispatch becomes
    the result [{"error": str(e)}]. *)
Lemma tool_outcome_dispatched w allowed_tools call args s :
  not_allowed allowed_tools (fn_name call) = false ->
  fst (tool_outcome w allowed_tools call args s)
  = match fst (execute_tool w (fn_name call) args s) with
    | Ok payload => payload
    | Raise e => error_result (str_exn e)
    end /\
  snd (tool_outcome w allowed_tools call args s)
  = snd (execute_tool w (fn_name call) args s).
Proof.
  unfold tool_outcome. intros ->.
  destruct (execute_tool w (fn_name call) args s) as [[payload|e] s1]; auto.
Qed.

Lemma tool_outcome_effects w allowed_tools call args s :
  let s' := snd (tool_outcome w allowed_tools call args s) in
  completions s' = completions s /\
  client_built s' = client_built s /\
  map fst (dispatched s')
  = (map fst (dispatched s) ++ dispatches allowed_tools call)%list.
Proof.
  unfold dispatches. cbv zeta.
  destruct (not_allowed allowed_tools (fn_name call)) eqn:N.
  - rewrite tool_outcome_refused by exact N. simpl. now rewrite app_nil_r.
  - destruct (tool_outcome_dispatched w allowed_tools call args s N) as (_ & ->).
    destruct (execute_tool_effects w (fn_name call) args s) as (C1 & C2 & C3).
    rewrite C1, C2, C3, map_app. auto.
Qed.

(** *** The loop over the tool calls *)

(** When the arguments of every call decode, the loop runs to its end: it
    appends one tool message per call, in the order of the calls, each with
    the id and the name of its call; it dispatches exactly the allowed calls;
    and it makes no completion call. *)
Lemma run_tool_calls_decoded w allowed_tools calls :
  (forall call, In call calls ->
                exists args, json_loads w (arguments_text call) = Ok args) ->
  forall messages s,
  exists new s',
    run_tool_calls w allowed_tools calls messages s = (Ok (messages ++ new)%list, s') /\
    Forall2 answers calls new /\
    completions s' = completions s /\
    client_built s' = client_built s /\
    map fst (dispatched s')
    = (map fst (dispatched s) ++ flat_map (dispatches allowed_tools) calls)%list.
Proof.
  induction calls as [|call rest IH]; intros D messages s.
  - exists [], s. simpl. rewrite !app_nil_r. repeat split; auto.
  - destruct (D call (or_introl eq_refl)) as (args & Da).
    simpl. unfold bind. rewrite (run_tool_call_decoded _ _ _ _ _ Da).
    destruct (tool_outcome_effects w allowed_tools call args s) as (C1 & C2 & C3).
    set (s1 := snd (tool_outcome w allowed_tools call args s)) in *.
    destruct (IH (fun c I => D c (or_intror I))
                 (messages ++ [ToolMessage (call_id call) (fn_name call)
                     (json_dumps w (fst (tool_outcome w allowed_tools call args s)))])%list
                 s1) as (new & s' & R & F & K1 & K2 & K3).
    eexists (_ :: new), s'. rewrite R, <- app_assoc. simpl.
    split; [reflexivity|]. split; [constructor; [eexists; reflexivity | exact F]|].
    rewrite K1, K2, K3, C1, C2, C3, <- app_assoc. auto.
Qed.

Lemma run_tool_calls_app w allowed_tools before after :
  forall messages s,
    run_tool_calls w allowed_tools (before ++ after) messages s =
    bind (run_tool_calls w allowed_tools before messages)
         (fun messages' => run_tool_calls w allowed_tools after messages') s.
Proof.
  induction before as [|call rest IH]; intros messages s; simpl.
  - reflexivity.
  - unfold bind.
    destruct (run_tool_call w allowed_tools call s) as [[m|e] s1]; [|reflexivity].
    rewrite IH. reflexivity.
Qed.

Lemma chat_quiet_call w allowed_tools call :
  chat_quiet (run_tool_call w allowed_tools call).
Proof.
  intros s. destruct (json_loads w (arguments_text call)) as [args|e] eqn:D.
  - rewrite (run_tool_call_decoded _ _ _ _ _ D). simpl.
    destruct (tool_outcome_effects w allowed_tools call args s) as (C1 & C2 & _).
    auto.
  - rewrite (run_tool_call_undecoded _ _ _ _ _ D). simpl. auto.
Qed.

Lemma chat_quiet_calls w allowed_tools calls :
  forall messages, chat_quiet (run_tool_calls w allowed_tools calls messages).
Proof.
  induction calls as [|call rest IH]; intros messages s; simpl; [auto|].
  unfold bind. destruct (chat_quiet_call w allowed_tools call s) as (C1 & C2).
  destruct (run_tool_call w allowed_tools call s) as [[m|e] s1]; simpl in *; [|auto].
  destruct (IH (messages ++ [m])%list s1) as (K1 & K2). rewrite K1, K2. auto.
Qed.

(** *** The chat *)

(** A chat that returns made one completion call when the first answer asked
    for no tool, and two when it did. *)
Lemma run_tool_calling_chat_inv w system_prompt user_query allowed_tools s answer s' :
  run_tool_calling_chat w system_prompt user_query allowed_tools s = (Ok answer, s') ->
  exists first,
    client_ready w s /\
    completions_create w (List.length (completions s))
      (first_request (opening system_prompt user_query) (tools_for allowed_tools))
    = Ok first /\
    client_ready w s' /\
    if requests_tools first
    then exists messages,
        completions s' =
        (completions s
         ++ [first_request (opening system_prompt user_query) (tools_for allowed_tools);
             plain_request messages])%list
    else
      completions s' =
      (completions s
       ++ [first_request (opening system_prompt user_query) (tools_for allowed_tools)])%list
      /\ answer = content_or_empty first.
Proof.
  unfold run_tool_calling_chat. fold (opening system_prompt user_query).
  unfold bind at 1. intros H.
  destruct (chat_completions_create w
              (first_request (opening system_prompt user_query)
                 (tools_for allowed_tools)) s) as [[first|e] s1] eqn:C;
    [|discriminate H].
  apply create_inv in C. destruct C as (R & C & ->).
  exists first. split; [exact R|]. split; [exact C|].
  unfold requests_tools.
  destruct (tool_calls first) as [[|call rest]|].
  - injection H as <- <-. split; [now left | auto].
  - unfold bind in H.
    match type of H with context [run_tool_calls ?w ?a ?c ?m ?s] =>
      destruct (chat_quiet_calls w a c m s) as (K1 & K2);
      destruct (run_tool_calls w a c m s) as [[messages|e] s2]
    end; [|discriminate H].
    simpl in K1, K2.
    destruct (chat_completions_create w (plain_request messages) s2)
      as [[final|e] s3] eqn:C2; [|discriminate H].
    apply create_inv in C2. destruct C2 as (_ & _ & ->). injection H as <- <-.
    split; [now left|]. exists messages. simpl. rewrite K1, <- app_assoc.
    reflexivity.
  - injection H as <- <-. split; [now left | auto].
Qed.

(** C2, the code at the failing input: the first answer asks for tools, and
    the arguments of one call are not JSON (the calls before it are served).
    Decoding them raises outside the [try], so the chat ends with that
    exception: the call gets no tool message, the calls after it are not
    looked at, and the second completion call is never made. *)
Theorem undecodable_arguments_abort_the_chat
    w system_prompt user_query allowed_tools s first before call rest e :
  client_ready w s ->
  completions_create w (List.length (completions s))
    (first_request (opening system_prompt user_query) (tools_for allowed_tools))
  = Ok first ->
  tool_calls first = Some (before ++ call :: rest)%list ->
  (forall c, In c before -> exists args, json_loads w (arguments_text c) = Ok args) ->
  json_loads w (arguments_text call) = Raise e ->
  exists s',
    run_tool_calling_chat w system_prompt user_query allowed_tools s = (Raise e, s') /\
    completions s' =
    (completions s
     ++ [first_request (opening system_prompt user_query) (tools_for allowed_tools)])%list /\
    map fst (dispatched s')
    = (map fst (dispatched s) ++ flat_map (dispatches allowed_tools) before)%list.
Proof.
  intros R C T D U.
  unfold run_tool_calling_chat. fold (opening system_prompt user_query).
  unfold bind at 1. rewrite (create_ready _ _ _ R), C, T.
  set (s1 := after_call s _).
  set (messages := (opening system_prompt user_query ++ [Assistant first])%list).
  assert (L : exists s', run_tool_calls w allowed_tools (before ++ call :: rest)
                           messages s1 = (Raise e, s') /\
                         completions s' = completions s1 /\
                         map fst (dispatched s')
                         = (map fst (dispatched s1)
                            ++ flat_map (dispatches allowed_tools) before)%list).
  { rewrite run_tool_calls_app. unfold bind at 1.
    destruct (run_tool_calls_decoded w allowed_tools before D messages s1)
      as (new & s2 & -> & _ & K1 & _ & K3).
    exists s2. simpl. unfold bind.
    rewrite (run_tool_call_undecoded _ _ _ _ _ U). auto. }
  destruct L as (s' & L & K1 & K3). exists s'.
  destruct (before ++ call :: rest)%list as [|c0 l0] eqn:E.
  - destruct before; discriminate E.
  - unfold bind. rewrite L. auto.
Qed.

(** C2's failing input, run: the traveler role's model returns a first call
    whose arguments stop after the opening brace. *)
Lemma undecodable_arguments_abort_the_chat_witness :
  exists e s',
    traveler_agent Scenario.malformed_arguments "Where is PIA293?" initial
    = (Raise e, s') /\
    List.length (completions s') = 1 /\
    dispatched s' = [].
Proof.
  destruct (undecodable_arguments_abort_the_chat Scenario.malformed_arguments
              "You are a traveler support assistant. Help passengers understand where their flight is, its altitude, speed, and whether anything looks unusual. Use the flights_get_by_callsign tool when needed."
              "Where is PIA293?" (Some ["flights_get_by_callsign"]) initial
              (Scenario.asks [Scenario.malformed_call; Scenario.lookup_call])
              [] Scenario.malformed_call [Scenario.lookup_call]
              (JSONDecodeError
                 "Expecting property name enclosed in double quotes: line 1 column 2 (char 1)")
              (or_intror eq_refl) eq_refl eq_refl
              (fun c (H : In c []) => match H with end) eq_refl)
    as (s' & E & C & D).
  eexists. exists s'. split; [exact E|].
  split; [now rewrite C|].
  simpl in D. destruct (dispatched s'); [reflexivity | discriminate D].
Defined.

(** What C2 says does hold when the arguments of every call decode: whatever
    the tools do, each call is answered by one tool message, in order and
    under its id, only the allowed calls are dispatched, and the second
    completion call is made, on the conversation with those messages. *)
Lemma decodable_tool_calls_reach_the_second_call
    w system_prompt user_query allowed_tools s first call rest :
  client_ready w s ->
  completions_create w (List.length (completions s))
    (first_request (opening system_prompt user_query) (tools_for allowed_tools))
  = Ok first ->
  tool_calls first = Some (call :: rest) ->
  (forall c, In c (call :: rest) ->
             exists args, json_loads w (arguments_text c) = Ok args) ->
  exists new s',
    Forall2 answers (call :: rest) new /\
    let messages :=
      (opening system_prompt user_query ++ [Assistant first] ++ new)%list in
    run_tool_calling_chat w system_prompt user_query allowed_tools s =
    (match completions_create w (S (List.length (completions s)))
             (plain_request messages) with
     | Ok final => Ok (content_or_empty final)
     | Raise e => Raise e
     end, s') /\
    completions s' =
    (completions s
     ++ [first_request (opening system_prompt user_query) (tools_for allowed_tools);
         plain_request messages])%list /\
    map fst (dispatched s')
    = (map fst (dispatched s)
       ++ flat_map (dispatches allowed_tools) (call :: rest))%list.
Proof.
  intros R C T D.
  unfold run_tool_calling_chat. fold (opening system_prompt user_query).
  unfold bind at 1. rewrite (create_ready _ _ _ R), C, T.
  set (s1 := after_call s _).
  destruct (run_tool_calls_decoded w allowed_tools (call :: rest) D
              (opening system_prompt user_query ++ [Assistant first])%list s1)
    as (new & s2 & L & F & K1 & K2 & K3).
  rewrite <- app_assoc in L.
  exists new,
    (after_call s2
       (plain_request
          (opening system_prompt user_query ++ [Assistant first] ++ new)%list)).
  split; [exact F|]. cbv zeta.
  unfold bind at 1. rewrite L. unfold bind.
  rewrite create_ready by (left; rewrite K2; reflexivity).
  assert (N : List.length (completions s2) = S (List.length (completions s))).
  { rewrite K1. unfold s1. simpl. rewrite length_app. simpl. lia. }
  rewrite N. split.
  - destruct (completions_create w (S _) _) as [final|e]; reflexivity.
  - unfold after_call at 1 2. cbn [completions dispatched].
    rewrite K1, K3. unfold s1. cbn [after_call completions dispatched].
    rewrite <- app_assoc. auto.
Qed.

(** The traveler role's model asks for a tool of the ops role and for its
    own, while the webhook is down: the first call is refused without being
    dispatched, the fault of the second becomes its result, both are answered
    in order under their ids, and the second completion call gives the
    answer. *)
Example refused_and_failed_calls_are_answered :
  exists system_prompt s',
    traveler_agent Scenario.forbidden_then_failing "Where is PIA293?" initial
    = (Ok "I could not reach the flight data.", s') /\
    map fst (dispatched s') = ["flights_get_by_callsign"] /\
    nth_error (completions s') 1 =
    Some (plain_request
            (opening system_prompt "Where is PIA293?"
             ++ [Assistant (Scenario.asks [Scenario.alerts_call; Scenario.lookup_call]);
                 ToolMessage "call_2" "alerts_list_active"
                   (Scenario.dumps
                      (error_result (not_allowed_message "alerts_list_active")));
                 ToolMessage "call_1" "flights_get_by_callsign"
                   (Scenario.dumps
                      (error_result "HTTPConnectionPool: Max retries exceeded"))])%list).
Proof.
  eexists. eexists. split; [vm_compute; reflexivity|].
  split; reflexivity.
Qed.

(** A chat returns when the client can be built, the service answers and the
    arguments it sends decode. *)
Lemma run_tool_calling_chat_returns w system_prompt user_query allowed_tools s :
  get_groq_client w = Ok tt ->
  service_answers w ->
  arguments_decode w ->
  exists answer s',
    run_tool_calling_chat w system_prompt user_query allowed_tools s = (Ok answer, s').
Proof.
  intros G A D.
  assert (R : client_ready w s) by now right.
  destruct (A (List.length (completions s))
              (first_request (opening system_prompt user_query)
                 (tools_for allowed_tools))) as (first & C).
  destruct (tool_calls first) as [[|call rest]|] eqn:T.
  - unfold run_tool_calling_chat. fold (opening system_prompt user_query).
    unfold bind. rewrite (create_ready _ _ _ R), C, T. unfold ret. eauto.
  - destruct (decodable_tool_calls_reach_the_second_call w system_prompt user_query
                allowed_tools s first call rest R C T
                (fun c I => D _ _ _ _ c C T I)) as (new & s' & _ & E & _).
    cbv zeta in E. rewrite E.
    destruct (A (S (List.length (completions s)))
                (plain_request
                   (opening system_prompt user_query ++ [Assistant first] ++ new)%list))
      as (final & ->).
    eauto.
  - unfold run_tool_calling_chat. fold (opening system_prompt user_query).
    unfold bind. rewrite (create_ready _ _ _ R), C, T. unfold ret. eauto.
Qed.

(** *** The orchestrator *)

(** Under the same conditions the orchestrator returns. *)
Lemma traveler_with_ops_returns w callsign passenger_question s :
  get_groq_client w = Ok tt ->
  service_answers w ->
  arguments_decode w ->
  exists answer s',
    traveler_with_ops w callsign passenger_question s = (Ok answer, s').
Proof.
  intros G A D. unfold traveler_with_ops, traveler_agent, ops_agent.
  unfold bind at 1.
  match goal with |- context [run_tool_calling_chat ?w ?p ?q ?a ?s] =>
    destruct (run_tool_calling_chat_returns w p q a s G A D) as (r1 & s1 & ->)
  end.
  unfold bind at 1.
  match goal with |- context [run_tool_calling_chat ?w ?p ?q ?a ?s] =>
    destruct (run_tool_calling_chat_returns w p q a s G A D) as (r2 & s2 & ->)
  end.
  unfold bind. rewrite create_ready by now right.
  match goal with |- context [completions_create ?w ?k ?r] =>
    destruct (A k r) as (final & ->)
  end.
  unfold ret. eauto.
Qed.

(** The completion calls of a chat that returns: the first request, and one
    more when its answer asked for tools. *)
Lemma run_tool_calling_chat_calls w system_prompt user_query allowed_tools s answer s' :
  run_tool_calling_chat w system_prompt user_query allowed_tools s = (Ok answer, s') ->
  exists first more,
    completions s' =
    (completions s
     ++ first_request (opening system_prompt user_query) (tools_for allowed_tools)
     :: more)%list /\
    completions_create w (List.length (completions s))
      (first_request (opening system_prompt user_query) (tools_for allowed_tools))
    = Ok first /\
    List.length more = Nat.b2n (requests_tools first).
Proof.
  intros H. apply run_tool_calling_chat_inv in H.
  destruct H as (first & _ & C & _ & L).
  exists first. destruct (requests_tools first).
  - destruct L as (messages & L). exists [plain_request messages]. auto.
  - destruct L as (L & _). exists []. auto.
Qed.

(** Two chats and one plain completion call, one after the other. *)
Lemma two_chats_and_a_call w p1 q1 a1 p2 q2 a2
    (closing : string -> string -> list chat_message) s answer s' :
  bind (run_tool_calling_chat w p1 q1 a1)
    (fun r1 =>
       bind (run_tool_calling_chat w p2 q2 a2)
         (fun r2 =>
            bind (chat_completions_create w (plain_request (closing r1 r2)))
              (fun final => ret (content_or_empty final)))) s
  = (Ok answer, s') ->
  exists calls first1 first2,
    completions s' = (completions s ++ calls)%list /\
    nth_error calls 0 = Some (first_request (opening p1 q1) (tools_for a1)) /\
    completions_create w (List.length (completions s))
      (first_request (opening p1 q1) (tools_for a1)) = Ok first1 /\
    nth_error calls (1 + Nat.b2n (requests_tools first1))
    = Some (first_request (opening p2 q2) (tools_for a2)) /\
    completions_create w
      (List.length (completions s) + 1 + Nat.b2n (requests_tools first1))
      (first_request (opening p2 q2) (tools_for a2)) = Ok first2 /\
    List.length calls
    = 3 + Nat.b2n (requests_tools first1) + Nat.b2n (requests_tools first2).
Proof.
  unfold bind at 1. intros H.
  destruct (run_tool_calling_chat w p1 q1 a1 s) as [[r1|e] s1] eqn:T;
    [|discriminate H].
  unfold bind at 1 in H.
  destruct (run_tool_calling_chat w p2 q2 a2 s1) as [[r2|e] s2] eqn:O;
    [|discriminate H].
  unfold bind in H.
  destruct (chat_completions_create w (plain_request (closing r1 r2)) s2)
    as [[final|e] s3] eqn:F; [|discriminate H].
  injection H as <- <-.
  apply create_inv in F. destruct F as (_ & _ & ->).
  apply run_tool_calling_chat_calls in T. destruct T as (f1 & m1 & L1 & C1 & N1).
  apply run_tool_calling_chat_calls in O. destruct O as (f2 & m2 & L2 & C2 & N2).
  set (t1 := first_request (opening p1 q1) (tools_for a1)) in *.
  set (t2 := first_request (opening p2 q2) (tools_for a2)) in *.
  exists (t1 :: m1 ++ t2 :: m2 ++ [plain_request (closing r1 r2)])%list, f1, f2.
  split.
  { unfold after_call. cbn [completions]. rewrite L2, L1.
    repeat (rewrite <- app_assoc; simpl). reflexivity. }
  split; [reflexivity|]. split; [exact C1|].
  split.
  { rewrite <- N1. simpl. rewrite nth_error_app2 by lia.
    now rewrite Nat.sub_diag. }
  split.
  { rewrite <- C2, L1, length_app. simpl. f_equal. lia. }
  simpl. rewrite length_app. simpl. rewrite length_app. simpl. lia.
Qed.

(** C6, as amended: a run of the orchestrator that returns has made three
    completion calls, plus one for each of the two roles whose first answer
    asked for tools: three when neither did, five when both did.  The first
    answers are those the service gave to the first request of each role,
    the traveler's with the lookup tool, the ops role's with the other two. *)
Theorem orchestrator_completion_calls w callsign passenger_question s answer s' :
  traveler_with_ops w callsign passenger_question s = (Ok answer, s') ->
  exists calls traveler_request traveler_first ops_request ops_first,
    completions s' = (completions s ++ calls)%list /\
    nth_error calls 0 = Some traveler_request /\
    req_tools traveler_request = Some (tools_for (Some ["flights_get_by_callsign"])) /\
    completions_create w (List.length (completions s)) traveler_request
    = Ok traveler_first /\
    nth_error calls (1 + Nat.b2n (requests_tools traveler_first)) = Some ops_request /\
    req_tools ops_request
    = Some (tools_for (Some ["flights_list_region_snapshot"; "alerts_list_active"])) /\
    completions_create w
      (List.length (completions s) + 1 + Nat.b2n (requests_tools traveler_first))
      ops_request
    = Ok ops_first /\
    List.length calls
    = 3 + Nat.b2n (requests_tools traveler_first) + Nat.b2n (requests_tools ops_first).
Proof.
  intros H.
  apply (two_chats_and_a_call w _ _ _ _ _ _
           (fun traveler_reply ops_reply =>
              [Plain "system" _;
               Plain "user"
                 ("Passenger question: " ++ passenger_question ++ nl
                  ++ "Flight: " ++ callsign ++ nl ++ nl
                  ++ "Traveler agent said:" ++ nl ++ traveler_reply ++ nl ++ nl
                  ++ "Ops agent said:" ++ nl ++ ops_reply ++ nl ++ nl
                  ++ "Now give a final answer for the passenger.")])) in H.
  destruct H as (calls & f1 & f2 & L & N0 & C1 & N1 & C2 & Len).
  exists calls. eexists. exists f1. eexists. exists f2.
  split; [exact L|]. split; [exact N0|]. split; [reflexivity|].
  split; [exact C1|]. split; [exact N1|]. split; [reflexivity|].
  split; [exact C2 | exact Len].
Qed.

(** The amended C6 on a run where the traveler role looks the flight up and
    the ops role answers at once: four completion calls. *)
Lemma orchestrator_completion_calls_witness :
  exists answer s',
    traveler_with_ops Scenario.traveler_looks_up "PIA293" "Is everything normal?"
      initial = (Ok answer, s') /\
    List.length (completions s') = 3 + 1 + 0.
Proof.
  eassert (H : traveler_with_ops Scenario.traveler_looks_up "PIA293"
                 "Is everything normal?" initial = (Ok _, _))
    by (vm_compute; reflexivity).
  destruct (orchestrator_completion_calls _ _ _ _ _ _ H)
    as (calls & rt & ft & ro & fo & L & _ & _ & Ct & _ & _ & Co & Len).
  eexists. eexists. split; [exact H|].
  vm_compute in Ct. injection Ct as <-.
  vm_compute in Co. injection Co as <-.
  rewrite L. exact Len.
Defined.

(** C6 as stated fails: each role goes through at most one round of tool
    use, the traveler role through exactly one (its lookup is the only
    dispatch), and the completion service is called four times, not three. *)
Lemma one_tool_round_makes_four_calls :
  exists answer s',
    traveler_with_ops Scenario.traveler_looks_up "PIA293" "Is everything normal?"
      initial = (Ok answer, s') /\
    map fst (dispatched s') = ["flights_get_by_callsign"] /\
    List.length (completions s') = 4 /\
    List.length (completions s') <> 3.
Proof.
  eexists. eexists. split; [vm_compute; reflexivity|].
  split; [reflexivity|]. split; [reflexivity|]. discriminate.
Qed.

(** With no tool asked for by either role the calls are three. *)
Lemma no_tool_round_makes_three_calls :
  exists answer s',
    traveler_with_ops Scenario.no_tools "PIA293" "Is everything normal?" initial
    = (Ok answer, s') /\
    List.length (completions s') = 3.
Proof. eexists. eexists. split; [vm_compute; reflexivity | reflexivity]. Qed.

End AgentsProps.

(** ** More of [server.py] *)

Module ServerMore.
Import Py Runtime Server Notions MoreNotions ServerProps.
Local Open Scope py_scope.

(** *** The fetcher *)

Lemma webhook_of_region1 w : webhook_of w (VStr "region1") = Ok (Some (region1_url w)).
Proof. reflexivity. Qed.

Lemma webhook_of_other w r : r <> "region1" -> webhook_of w (VStr r) = Ok None.
Proof.
  intros N. simpl. apply String.eqb_neq in N. now rewrite N.
Qed.

(** X1: a region name other than region1 is refused with a [ValueError] that
    names it, by the fetcher and so by each of the three tools, before any
    request is sent: the state is left as it was. *)
Theorem unknown_region_is_refused w r s :
  r <> "region1" ->
  _fetch_snapshot w (VStr r) s = (Raise (unknown_region r), s) /\
  flights_list_region_snapshot w (VStr r) s = (Raise (unknown_region r), s) /\
  (forall callsign,
     flights_get_by_callsign w callsign (VStr r) s = (Raise (unknown_region r), s)) /\
  alerts_list_active w (VStr r) s = (Raise (unknown_region r), s).
Proof.
  intros N.
  assert (F : _fetch_snapshot w (VStr r) s = (Raise (unknown_region r), s)).
  { unfold _fetch_snapshot. rewrite (webhook_of_other w r N). reflexivity. }
  split; [exact F|].
  unfold flights_list_region_snapshot, flights_get_by_callsign, alerts_list_active,
    bind.
  rewrite F. auto.
Qed.

Lemma unknown_region_is_refused_witness :
  alerts_list_active Scenario.traffic (VStr "region2") initial
  = (Raise (ValueError "Unknown region 'region2'. Known regions: region1"), initial).
Proof.
  apply (unknown_region_is_refused Scenario.traffic "region2" initial).
  discriminate.
Defined.

Lemma dict_get_setdefault k k' v d :
  dict_get k (dict_setdefault k' v d) =
  match dict_get k d with
  | Some x => Some x
  | None => if String.eqb k k' then Some v else None
  end.
Proof.
  destruct (String.eqb_spec k k') as [->|N].
  - rewrite dict_get_setdefault_same. now destruct (dict_get k' d).
  - rewrite dict_get_setdefault_other by exact N. now destruct (dict_get k d).
Qed.

(** X2: the snapshot the fetcher returns is the upstream payload with at most
    two keys added.  Every field of the payload comes back with its value,
    the region and the count included; [region] and [flight_count] are there
    in any case, the region being the requested one when upstream names
    none; and no other key appears. *)
Theorem fetched_payload_passes_through w region s snap s' :
  _fetch_snapshot w region s = (Ok snap, s') ->
  exists url payload,
    requests_get_json w (List.length (fetches s)) url = Ok (VDict payload) /\
    (forall k v, dict_get k payload = Some v -> py_getitem snap k = Ok v) /\
    (dict_get "region" payload = None -> py_getitem snap "region" = Ok region) /\
    (exists n, py_getitem snap "flight_count" = Ok n) /\
    (forall k, k <> "region" -> k <> "flight_count" ->
               dict_get k payload = None -> py_getitem snap k = Raise (KeyError k)).
Proof.
  intros H. apply fetch_snapshot_inv in H.
  destruct H as (r & url & d & n & -> & _ & G & _ & -> & _).
  exists url, d. split; [exact G|].
  unfold py_getitem, dict_getitem.
  repeat split.
  - intros k v E. rewrite !dict_get_setdefault, E. reflexivity.
  - intros E. rewrite !dict_get_setdefault, E. reflexivity.
  - rewrite !dict_get_setdefault.
    destruct (dict_get "flight_count" d); simpl; eauto.
  - intros k N1 N2 E. rewrite !dict_get_setdefault, E.
    apply String.eqb_neq in N1, N2. now rewrite N1, N2.
Qed.

Lemma fetched_payload_passes_through_witness :
  exists snap s',
    _fetch_snapshot Scenario.stale_count (VStr "region1") initial = (Ok snap, s') /\
    py_getitem snap "fetched_at_iso" = Ok (VStr "2023-11-14T22:13:20Z") /\
    py_getitem snap "squawk" = Raise (KeyError "squawk").
Proof.
  eassert (H : _fetch_snapshot Scenario.stale_count (VStr "region1") initial
               = (Ok _, _)) by reflexivity.
  destruct (fetched_payload_passes_through _ _ _ _ _ H)
    as (url & payload & G & P & _ & _ & A).
  eexists. eexists. split; [exact H|].
  vm_compute in G. injection G as <-.
  split; [apply P; reflexivity | apply A; (discriminate || reflexivity)].
Defined.

(** What a request for region1 leaves in the state. *)
Lemma fetch_region1 w s :
  _fetch_snapshot w (VStr "region1") s =
  (match requests_get_json w (List.length (fetches s)) (region1_url w) with
   | Ok (VDict d) =>
       let d := dict_setdefault "region" (VStr "region1") d in
       n <~ (flights <~ py_get_default (VDict d) "flights" (VList []) ;;
             py_len flights) ;;
       Ok (VDict (dict_setdefault "flight_count" (VInt (Z.of_nat n)) d))
   | Ok data => Raise (no_attribute data "setdefault")
   | Raise e => Raise e
   end, logged s (region1_url w)).
Proof.
  unfold _fetch_snapshot. rewrite webhook_of_region1. unfold bind, requests_get.
  fold (logged s (region1_url w)).
  destruct (requests_get_json w _ _) as [[]|]; try reflexivity.
  unfold lift, ret.
  match goal with |- context [rbind ?a ?b] => destruct (rbind a b) end; reflexivity.
Qed.

(** X3: a call of any of the three tools for region1 sends exactly one
    request, to the URL of the environment when it gives one and to the
    default otherwise, whatever the answer and whatever the tool then does
    with it: nothing is cached and nothing is retried. *)
Theorem one_request_per_tool_call w callsign s :
  fetches (snd (flights_list_region_snapshot w (VStr "region1") s))
  = (fetches s ++ [region1_url w])%list /\
  fetches (snd (flights_get_by_callsign w callsign (VStr "region1") s))
  = (fetches s ++ [region1_url w])%list /\
  fetches (snd (alerts_list_active w (VStr "region1") s))
  = (fetches s ++ [region1_url w])%list.
Proof.
  unfold flights_list_region_snapshot, flights_get_by_callsign, alerts_list_active,
    bind, lift, ret.
  rewrite fetch_region1.
  destruct (requests_get_json w _ _) as [[]|]; cbv zeta; cbn [rbind];
    repeat match goal with
           | |- context [match ?r with Ok _ => _ | Raise _ => _ end] =>
               destruct r
           end; auto.
Qed.

(** X4: a failure of the request (no connection, a timeout, an HTTP error
    status, a body that is not JSON) comes out of the fetcher and of each
    tool as the exception it is, after the one request. *)
Theorem upstream_failure_surfaces w callsign s e :
  requests_get_json w (List.length (fetches s)) (region1_url w) = Raise e ->
  _fetch_snapshot w (VStr "region1") s = (Raise e, logged s (region1_url w)) /\
  flights_list_region_snapshot w (VStr "region1") s
  = (Raise e, logged s (region1_url w)) /\
  flights_get_by_callsign w callsign (VStr "region1") s
  = (Raise e, logged s (region1_url w)) /\
  alerts_list_active w (VStr "region1") s = (Raise e, logged s (region1_url w)).
Proof.
  intros G.
  unfold flights_list_region_snapshot, flights_get_by_callsign, alerts_list_active,
    bind.
  rewrite fetch_region1, G. auto.
Qed.

Lemma upstream_failure_surfaces_witness :
  alerts_list_active MoreScenarios.webhook_down (VStr "region1") initial
  = (Raise (RequestException "HTTPConnectionPool: Max retries exceeded"),
     logged initial "http://localhost:5678/webhook/latest-region1").
Proof.
  apply (upstream_failure_surfaces MoreScenarios.webhook_down VNone initial).
  reflexivity.
Defined.

(** X5: the length of the flights is taken before [setdefault] looks at the
    payload, so a flights entry that has no length (null, a number, a
    boolean) fails the fetch with the [TypeError] of [len], also when
    upstream sends a [flight_count] of its own. *)
Theorem unsized_flights_fail_the_fetch w s payload flights e :
  requests_get_json w (List.length (fetches s)) (region1_url w) = Ok (VDict payload) ->
  dict_get "flights" payload = Some flights ->
  py_len flights = Raise e ->
  _fetch_snapshot w (VStr "region1") s = (Raise e, logged s (region1_url w)).
Proof.
  intros G F L. rewrite fetch_region1, G. cbv zeta.
  rewrite flights_entry_setdefault by discriminate.
  simpl. rewrite F. cbn [rbind]. rewrite L. reflexivity.
Qed.

Lemma unsized_flights_fail_the_fetch_witness :
  _fetch_snapshot MoreScenarios.null_flights (VStr "region1") initial
  = (Raise (TypeError "object of type 'NoneType' has no len()"),
     logged initial "http://localhost:5678/webhook/latest-region1").
Proof.
  eapply (unsized_flights_fail_the_fetch MoreScenarios.null_flights initial _ VNone);
    reflexivity.
Defined.

(** *** Callsign lookup *)






















(** *** Anomaly detection *)

(** X10: the thresholds are strict.  When the three locals hold integers,
    the low-speed reason is given exactly above 8000 m and below 100 m/s, the
    descent reason exactly below -20 m/s, the climb reason exactly above
    20 m/s, and the severity is warning exactly when a reason is given: at
    8000 m, at 100 m/s and at 20 m/s either way nothing fires. *)
Theorem rule_thresholds_are_strict f a v r :
  altitude_of f = Ok a -> velocity_of f = Ok v -> vertical_rate_of f = Ok r ->
  forall za zv zr,
    holds_int za a -> holds_int zv v -> holds_int zr r ->
    exists reasons severity,
      evaluate_rules f = Ok (reasons, severity) /\
      (In low_speed reasons <-> (8000 < za /\ zv < 100)%Z) /\
      (In high_descent reasons <-> (zr < -20)%Z) /\
      (In high_climb reasons <-> (20 < zr)%Z) /\
      (severity = "warning" <-> reasons <> []).
Proof.
  intros Ha Hv Hr za zv zr Na Nv Nr.
  unfold evaluate_rules. rewrite Hv, Ha, Hr. cbn [rbind].
  assert (Ga : py_gt a 8000 = Ok (8000 <? za)%Z)
    by (destruct Na as [-> | [-> ->]]; reflexivity).
  assert (Lv : py_lt v 100 = Ok (zv <? 100)%Z)
    by (destruct Nv as [-> | [-> ->]]; reflexivity).
  assert (Lr : py_lt r (-20) = Ok (zr <? -20)%Z)
    by (destruct Nr as [-> | [-> ->]]; reflexivity).
  assert (Gr : py_gt r 20 = Ok (20 <? zr)%Z)
    by (destruct Nr as [-> | [-> ->]]; reflexivity).
  rewrite Ga, Lv, Lr, Gr. cbn [rbind].
  destruct (Z.ltb_spec 8000 za), (Z.ltb_spec zv 100), (Z.ltb_spec zr (-20)),
    (Z.ltb_spec 20 zr); cbn [rbind app];
    eexists; eexists; (split; [reflexivity|]);
    unfold low_speed, high_descent, high_climb; simpl;
    repeat split; intros; try lia; try discriminate; try congruence;
    repeat match goal with
           | H : _ \/ _ |- _ => destruct H
           | H : False |- _ => destruct H
           | H : _ = _ |- _ => discriminate H
           | H : _ /\ _ |- _ => destruct H
           end; try lia; auto.
Qed.

Lemma rule_thresholds_are_strict_witness :
  exists reasons severity,
    evaluate_rules Scenario.climbing = Ok (reasons, severity) /\
    ~ In low_speed reasons /\ In high_climb reasons.
Proof.
  destruct (rule_thresholds_are_strict Scenario.climbing (VInt 3100) (VInt 120)
              (VInt 25) eq_refl eq_refl eq_refl 3100%Z 120%Z 25%Z
              (or_introl eq_refl) (or_introl eq_refl) (or_introl eq_refl))
    as (reasons & severity & E & L & _ & C & _).
  exists reasons, severity. split; [exact E|]. split.
  - intros I. apply L in I. lia.
  - apply C. lia.
Defined.

Lemma alert_step_needs_a_dict alerts f :
  (forall d, f <> VDict d) -> exists e, alert_step alerts f = Raise e.
Proof.
  intros N. unfold alert_step, evaluate_rules, velocity_of.
  destruct f; try (eexists; reflexivity). exfalso. now apply (N d).
Qed.

Lemma alerts_loop_aborts flights f :
  In f flights -> (forall d, f <> VDict d) ->
  forall alerts, exists e, alerts_loop alerts flights = Raise e.
Proof.
  induction flights as [|g rest IH]; intros I N alerts; [destruct I|].
  simpl. destruct I as [->|I].
  - destruct (alert_step_needs_a_dict alerts f N) as (e & ->). eexists. reflexivity.
  - destruct (alert_step alerts g) as [alerts'|e]; cbn [rbind].
    + apply IH; assumption.
    + eexists. reflexivity.
Qed.

(** X11: the detector has no partial result: when one entry of the flights
    is not an object, the whole call ends on an exception, whatever the other
    flights are. *)
Theorem one_malformed_flight_aborts_the_detector w region s snap s' flights f :
  _fetch_snapshot w region s = (Ok snap, s') ->
  flights_of snap = Ok flights ->
  In f flights ->
  (forall d, f <> VDict d) ->
  exists e, alerts_list_active w region s = (Raise e, s').
Proof.
  intros H F I N. unfold alerts_list_active, bind, lift. rewrite H.
  fold (flights_of snap). rewrite F. cbn [rbind].
  destruct (alerts_loop_aborts flights f I N []) as (e & ->).
  eexists. reflexivity.
Qed.

Lemma one_malformed_flight_aborts_the_detector_witness :
  exists s',
    alerts_list_active MoreScenarios.junk_after_match (VStr "region1") initial
    = (Raise (AttributeError "'str' object has no attribute 'get'"), s').
Proof.
  destruct (one_malformed_flight_aborts_the_detector MoreScenarios.junk_after_match
              (VStr "region1") initial _ _
              [Scenario.cruising; Scenario.PIA293; VStr "junk"] (VStr "junk")
              eq_refl eq_refl (or_intror (or_intror (or_introl eq_refl))))
    as (e & E).
  - discriminate.
  - eexists. rewrite E. vm_compute in E. injection E as <-. reflexivity.
Defined.

(** X12: the results of the lookup and of the detector carry the region, the
    snapshot time and the fetch time of the snapshot they were computed
    from, the one the Region Snapshot tool returns for the same answer of
    upstream. *)
Theorem results_echo_the_snapshot w callsign region s r s' :
  flights_get_by_callsign w callsign region s = (Ok r, s')
  \/ alerts_list_active w region s = (Ok r, s') ->
  exists snap,
    flights_list_region_snapshot w region s = (Ok snap, s') /\
    py_getitem r "region" = py_getitem snap "region" /\
    py_getitem r "snapshot_time" = py_getitem snap "snapshot_time" /\
    py_getitem r "fetched_at_iso" = py_getitem snap "fetched_at_iso".
Proof.
  unfold flights_get_by_callsign, alerts_list_active, flights_list_region_snapshot,
    bind, lift, ret.
  destruct (_fetch_snapshot w region s) as [[snap|e] s1];
    [|intros [H|H]; discriminate H].
  destruct (py_getitem snap "region") as [rg|e1] eqn:R;
    destruct (py_getitem snap "snapshot_time") as [t|e2] eqn:ST;
    destruct (py_getitem snap "fetched_at_iso") as [i|e3] eqn:I;
    intros [H|H]; exists snap; rewrite R, ST, I;
    repeat match type of H with
           | context [rbind ?x _] =>
               destruct x as [?|?]; cbn [rbind] in H; try discriminate H
           end;
    try match type of H with
        | context [match ?found with VNone => _ | _ => _ end] =>
            destruct found; try discriminate H
        end;
    inversion H; subst; repeat split; reflexivity.
Qed.

Lemma results_echo_the_snapshot_witness :
  exists r s',
    alerts_list_active Scenario.traffic (VStr "region1") initial = (Ok r, s') /\
    py_getitem r "fetched_at_iso" = Ok (VStr "2023-11-14T22:13:20Z").
Proof.
  eassert (H : alerts_list_active Scenario.traffic (VStr "region1") initial
               = (Ok _, _)) by reflexivity.
  destruct (results_echo_the_snapshot Scenario.traffic VNone _ _ _ _ (or_intror H))
    as (snap & S & _ & _ & I).
  eexists. eexists. split; [exact H|].
  rewrite I. vm_compute in S. injection S as <-. reflexivity.
Defined.

End ServerMore.

(** ** More of [agents.py] *)

Module AgentsMore.
Import Py Runtime Server Agents Notions MoreNotions AgentsProps.
Local Open Scope py_scope.

(** *** The client *)

(** X13: without an API key (unset or empty) and with no client built yet, a
    chat, and so the orchestrator, ends on the [ValueError] of the client
    before anything else happens: no completion call, no dispatch, no fetch,
    the state is as it was. *)
Theorem missing_api_key_stops_every_chat w s :
  client_built s = false ->
  GROQ_API_KEY w = None \/ GROQ_API_KEY w = Some "" ->
  exists e,
    get_groq_client w = Raise e /\
    (forall system_prompt user_query allowed_tools,
       run_tool_calling_chat w system_prompt user_query allowed_tools s = (Raise e, s)) /\
    (forall callsign passenger_question,
       traveler_with_ops w callsign passenger_question s = (Raise e, s)).
Proof.
  intros B K.
  assert (G : exists e, get_groq_client w = Raise e).
  { unfold get_groq_client. destruct K as [-> | ->]; eexists; reflexivity. }
  destruct G as (e & G). exists e. split; [exact G|].
  assert (C : forall system_prompt user_query allowed_tools,
             run_tool_calling_chat w system_prompt user_query allowed_tools s
             = (Raise e, s)).
  { intros. unfold run_tool_calling_chat, chat_completions_create, bind, client.
    now rewrite B, G. }
  split; [exact C|].
  intros. unfold traveler_with_ops, traveler_agent, bind. now rewrite C.
Qed.

Lemma missing_api_key_stops_every_chat_witness :
  exists e,
    traveler_with_ops MoreScenarios.no_key "PIA293" "Is everything normal?" initial
    = (Raise e, initial).
Proof.
  destruct (missing_api_key_stops_every_chat MoreScenarios.no_key initial eq_refl
              (or_introl eq_refl)) as (e & _ & _ & O).
  exists e. apply O.
Defined.

(** *** The registry *)


(** *** Dispatch *)

Lemma not_registered name :
  ~ In name registered ->
  String.eqb name "flights_list_region_snapshot" = false /\
  String.eqb name "flights_get_by_callsign" = false /\
  String.eqb name "alerts_list_active" = false.
Proof.
  intros N. repeat split; apply String.eqb_neq; intros ->; apply N; simpl; tauto.
Qed.

(** X15: a name that is not registered is dispatched to nothing: the
    dispatcher raises [ValueError] with the name in its message and sends no
    request. *)
Theorem unknown_tool_is_reported w name arguments s :
  ~ In name registered ->
  execute_tool w name arguments s
  = (Raise (ValueError ("Unknown tool: " ++ name)), dispatched_once s name arguments).
Proof.
  intros N. destruct (not_registered name N) as (A & B & C).
  unfold execute_tool, bind, log_dispatch. now rewrite A, B, C.
Qed.

Lemma unknown_tool_is_reported_witness :
  execute_tool Scenario.traffic "flights_delete" (VDict []) initial
  = (Raise (ValueError "Unknown tool: flights_delete"),
     dispatched_once initial "flights_delete" (VDict [])).
Proof.
  apply (unknown_tool_is_reported Scenario.traffic "flights_delete").
  simpl. intros [H|[H|[H|[]]]]; discriminate H.
Defined.

Lemma keywords_accepted f params d :
  (forall k v, In (k, v) d -> In k params) ->
  keywords f params (VDict d) = Ok d.
Proof.
  intros A. unfold keywords.
  destruct (find _ d) as [[k v]|] eqn:F; [|reflexivity].
  apply find_some in F. destruct F as [I F]. simpl in F.
  apply negb_true_iff in F. exfalso.
  assert (E : existsb (String.eqb k) params = true).
  { apply existsb_exists. exists k. split; [eapply A; exact I | apply String.eqb_refl]. }
  congruence.
Qed.

(** X16: the dispatcher hands the arguments over as keywords.  For the
    lookup, whatever the order of the keys, the callsign is the one given and
    the region is the one given or else region1; the call is the direct call
    of the tool, after the dispatch is logged. *)
Theorem dispatch_binds_the_keywords w d callsign s :
  (forall k v, In (k, v) d -> In k ["callsign"; "region"]) ->
  dict_get "callsign" d = Some callsign ->
  execute_tool w "flights_get_by_callsign" (VDict d) s
  = flights_get_by_callsign w callsign (region_of d)
      (dispatched_once s "flights_get_by_callsign" (VDict d)).
Proof.
  intros A C. unfold execute_tool. unfold bind at 1, log_dispatch.
  fold (dispatched_once s "flights_get_by_callsign" (VDict d)).
  cbn [String.eqb Ascii.eqb Bool.eqb].
  unfold bind at 1, lift. rewrite (keywords_accepted _ _ _ A).
  unfold bind at 1. unfold parameter at 1. rewrite C.
  unfold bind at 1. unfold parameter, region_of.
  destruct (dict_get "region" d); reflexivity.
Qed.

Lemma dispatch_binds_the_keywords_witness :
  execute_tool Scenario.traffic "flights_get_by_callsign"
    (VDict [("region", VStr "region1"); ("callsign", VStr "PIA293")]) initial
  = flights_get_by_callsign Scenario.traffic (VStr "PIA293") (VStr "region1")
      (dispatched_once initial "flights_get_by_callsign"
         (VDict [("region", VStr "region1"); ("callsign", VStr "PIA293")])).
Proof.
  apply (dispatch_binds_the_keywords Scenario.traffic
           [("region", VStr "region1"); ("callsign", VStr "PIA293")]).
  - intros k v [E|[E|[]]]; injection E as <- _; simpl; tauto.
  - reflexivity.
Defined.

(** X17: arguments that do not fit the tool fail the dispatch with a
    [TypeError] before any request is sent: a key that is no parameter of
    the tool, a lookup without callsign, or arguments that are no object. *)
Theorem misfit_arguments_fail_before_any_request w name arguments s :
  In name registered ->
  (forall d, arguments <> VDict d)
  \/ (exists d k v, arguments = VDict d /\ In (k, v) d /\ ~ In k (parameters_of name))
  \/ (exists d, arguments = VDict d /\ name = "flights_get_by_callsign"
                /\ dict_get "callsign" d = None) ->
  exists msg,
    execute_tool w name arguments s
    = (Raise (TypeError msg), dispatched_once s name arguments).
Proof.
  intros R H.
  assert (K : forall params,
             params = parameters_of name ->
             (forall d, arguments <> VDict d)
             \/ (exists d k v, arguments = VDict d /\ In (k, v) d /\ ~ In k params) ->
             exists msg, keywords name params arguments = Raise (TypeError msg)).
  { intros params _ [N | (d & k & v & -> & I & O)].
    - unfold keywords. destruct arguments; try (eexists; reflexivity).
      exfalso. now apply (N d).
    - unfold keywords.
      destruct (find (fun kv => negb (existsb (String.eqb (fst kv)) params)) d)
        as [[k' v']|] eqn:F; [eexists; reflexivity|].
      exfalso. apply (find_none _ _ F) in I. simpl in I.
      apply negb_false_iff, existsb_exists in I. destruct I as (x & Ix & E).
      apply String.eqb_eq in E. subst x. contradiction. }
  unfold execute_tool. unfold bind at 1, log_dispatch.
  fold (dispatched_once s name arguments).
  simpl in R. destruct R as [<-|[<-|[<-|[]]]];
    cbn [String.eqb Ascii.eqb Bool.eqb]; unfold bind, lift.
  - destruct H as [N | [E | (d & _ & D & _)]]; [| |discriminate D].
    + destruct (K ["region"] eq_refl (or_introl N)) as (msg & ->). eauto.
    + destruct (K ["region"] eq_refl (or_intror E)) as (msg & ->). eauto.
  - destruct H as [N | [E | (d & -> & _ & C)]].
    + destruct (K ["callsign"; "region"] eq_refl (or_introl N)) as (msg & ->). eauto.
    + destruct (K ["callsign"; "region"] eq_refl (or_intror E)) as (msg & ->). eauto.
    + destruct (keywords "flights_get_by_callsign" ["callsign"; "region"] (VDict d))
        as [kw|e] eqn:Kw.
      * unfold keywords in Kw. destruct (find _ d) as [[]|]; [discriminate Kw|].
        injection Kw as <-. unfold parameter at 1. rewrite C. eauto.
      * unfold keywords in Kw. destruct (find _ d) as [[]|]; [|discriminate Kw].
        injection Kw as <-. eauto.
  - destruct H as [N | [E | (d & _ & D & _)]]; [| |discriminate D].
    + destruct (K ["region"] eq_refl (or_introl N)) as (msg & ->). eauto.
    + destruct (K ["region"] eq_refl (or_intror E)) as (msg & ->). eauto.
Qed.

Lemma misfit_arguments_fail_before_any_request_witness :
  exists msg,
    execute_tool Scenario.traffic "alerts_list_active"
      (VDict [("callsign", VStr "PIA293")]) initial
    = (Raise (TypeError msg),
       dispatched_once initial "alerts_list_active"
         (VDict [("callsign", VStr "PIA293")])).
Proof.
  apply (misfit_arguments_fail_before_any_request Scenario.traffic "alerts_list_active").
  - simpl. tauto.
  - right. left. exists [("callsign", VStr "PIA293")], "callsign", (VStr "PIA293").
    split; [reflexivity|]. split; [now left|].
    simpl. intros [H|[]]. discriminate H.
Defined.

(** *** The chat *)

(** X18: when the first answer asks for no tool ([tool_calls] absent or
    empty), the chat is over after that one completion call: it returns the
    content of the answer, the empty text if there is none, and has
    dispatched and fetched nothing. *)
Theorem direct_answer_takes_one_call w system_prompt user_query allowed_tools s first :
  client_ready w s ->
  completions_create w (List.length (completions s))
    (first_request (opening system_prompt user_query) (tools_for allowed_tools))
  = Ok first ->
  requests_tools first = false ->
  run_tool_calling_chat w system_prompt user_query allowed_tools s
  = (Ok (content_or_empty first),
     after_call s
       (first_request (opening system_prompt user_query) (tools_for allowed_tools))).
Proof.
  intros R C T. unfold run_tool_calling_chat.
  fold (opening system_prompt user_query). unfold bind.
  rewrite (create_ready _ _ _ R), C.
  unfold requests_tools in T.
  destruct (tool_calls first) as [[|call rest]|]; try discriminate T; reflexivity.
Qed.

Lemma direct_answer_takes_one_call_witness :
  exists s',
    traveler_agent MoreScenarios.answers_directly "Where is PIA293?" initial
    = (Ok "PIA293 is fine.", s') /\
    List.length (completions s') = 1 /\ dispatched s' = [] /\ fetches s' = [].
Proof.
  eexists. split.
  - apply (direct_answer_takes_one_call MoreScenarios.answers_directly _
             "Where is PIA293?" (Some ["flights_get_by_callsign"]) initial
             (Scenario.says "PIA293 is fine.")
             (or_intror eq_refl) eq_refl eq_refl).
  - repeat split; reflexivity.
Defined.

(** X19: a call of a tool outside the allow-list is answered, not run: its
    tool message carries the refusal as an error result, and the state is
    untouched, so the tool was neither dispatched nor did it fetch. *)
Theorem refused_call_is_answered_not_run w allowed_tools call args s :
  json_loads w (arguments_text call) = Ok args ->
  not_allowed allowed_tools (fn_name call) = true ->
  run_tool_call w allowed_tools call s
  = (Ok (ToolMessage (call_id call) (fn_name call)
           (json_dumps w
              (VDict [("error",
                       VStr ("Tool " ++ fn_name call
                             ++ " is not allowed for this agent."))]))), s).
Proof.
  intros D N.
  rewrite (run_tool_call_decoded _ _ _ _ _ D), (tool_outcome_refused _ _ _ _ _ N).
  reflexivity.
Qed.

Lemma refused_call_is_answered_not_run_witness :
  exists text,
    run_tool_call Scenario.traffic (Some ["flights_get_by_callsign"])
      Scenario.alerts_call initial
    = (Ok (ToolMessage "call_2" "alerts_list_active" text), initial).
Proof.
  eexists.
  apply (refused_call_is_answered_not_run Scenario.traffic
           (Some ["flights_get_by_callsign"]) Scenario.alerts_call (VDict []) initial);
    reflexivity.
Defined.

(** X20: an allowed call is dispatched, and what comes of it is what the
    model is told: the payload of the tool, serialized, or, when the tool
    raises, the error result with the text of the exception.  The state is
    the one the dispatch left. *)
Theorem dispatched_call_reports_its_outcome w allowed_tools call args s :
  json_loads w (arguments_text call) = Ok args ->
  not_allowed allowed_tools (fn_name call) = false ->
  run_tool_call w allowed_tools call s
  = (Ok (ToolMessage (call_id call) (fn_name call)
           (json_dumps w
              match fst (execute_tool w (fn_name call) args s) with
              | Ok payload => payload
              | Raise e => VDict [("error", VStr (str_exn e))]
              end)),
     snd (execute_tool w (fn_name call) args s)).
Proof.
  intros D N. rewrite (run_tool_call_decoded _ _ _ _ _ D).
  destruct (tool_outcome_dispatched w allowed_tools call args s N) as (-> & ->).
  reflexivity.
Qed.

Lemma dispatched_call_reports_its_outcome_witness :
  run_tool_call MoreScenarios.webhook_down (Some ["flights_get_by_callsign"])
    Scenario.lookup_call initial
  = (Ok (ToolMessage "call_1" "flights_get_by_callsign"
           (Scenario.dumps
              (VDict [("error", VStr "HTTPConnectionPool: Max retries exceeded")]))),
     snd (execute_tool MoreScenarios.webhook_down "flights_get_by_callsign"
            (VDict [("callsign", VStr "PIA293")]) initial)).
Proof.
  apply (dispatched_call_reports_its_outcome MoreScenarios.webhook_down
           (Some ["flights_get_by_callsign"]) Scenario.lookup_call
           (VDict [("callsign", VStr "PIA293")]) initial); reflexivity.
Defined.

(** X21: a round of tools takes two completion calls.  When the first answer
    asks for tools and their arguments decode, the chat sends the second
    request without tools, on the conversation extended by the assistant's
    message and one tool message per call, and returns the content of the
    second answer; the completion log grows by two and the dispatch log by
    the number of calls the allow-list admits. *)
Theorem tool_round_takes_two_calls
    w system_prompt user_query allowed_tools s first call rest final :
  client_ready w s ->
  completions_create w (List.length (completions s))
    (first_request (opening system_prompt user_query) (tools_for allowed_tools))
  = Ok first ->
  tool_calls first = Some (call :: rest) ->
  (forall c, In c (call :: rest) ->
             exists args, json_loads w (arguments_text c) = Ok args) ->
  (forall messages,
     completions_create w (S (List.length (completions s))) (plain_request messages)
     = Ok final) ->
  exists tool_messages s',
    run_tool_calling_chat w system_prompt user_query allowed_tools s
    = (Ok (content_or_empty final), s') /\
    List.length tool_messages = List.length (call :: rest) /\
    nth_error (completions s') (S (List.length (completions s)))
    = Some (plain_request
              (opening system_prompt user_query ++ [Assistant first]
               ++ tool_messages)%list) /\
    List.length (completions s') = List.length (completions s) + 2 /\
    List.length (dispatched s')
    = List.length (dispatched s)
      + List.length (filter (fun c => negb (not_allowed allowed_tools (fn_name c)))
                       (call :: rest)).
Proof.
  intros R C T D F.
  destruct (decodable_tool_calls_reach_the_second_call w system_prompt user_query
              allowed_tools s first call rest R C T D)
    as (new & s' & A & E & L & K).
  cbv zeta in E, L. rewrite F in E.
  exists new, s'. split; [exact E|].
  split; [symmetry; eapply Forall2_length; exact A|].
  split.
  { rewrite L, nth_error_app2 by lia.
    replace (S (List.length (completions s)) - List.length (completions s)) with 1
      by lia.
    reflexivity. }
  split; [rewrite L, length_app; simpl; lia|].
  rewrite <- (length_map fst (dispatched s')), K, length_app, length_map.
  f_equal. clear.
  induction (call :: rest) as [|c l IH]; [reflexivity|].
  simpl. unfold dispatches at 1.
  destruct (not_allowed allowed_tools (fn_name c)); simpl; rewrite ?length_app;
    simpl; lia.
Qed.

Lemma tool_round_takes_two_calls_witness :
  exists s',
    traveler_agent Scenario.forbidden_then_failing "Where is PIA293?" initial
    = (Ok "I could not reach the flight data.", s') /\
    List.length (completions s') = 2 /\
    List.length (dispatched s') = 1.
Proof.
  destruct (tool_round_takes_two_calls Scenario.forbidden_then_failing
              "You are a traveler support assistant. Help passengers understand where their flight is, its altitude, speed, and whether anything looks unusual. Use the flights_get_by_callsign tool when needed."
              "Where is PIA293?" (Some ["flights_get_by_callsign"]) initial
              (Scenario.asks [Scenario.alerts_call; Scenario.lookup_call])
              Scenario.alerts_call [Scenario.lookup_call]
              (Scenario.says "I could not reach the flight data.")
              (or_intror eq_refl) eq_refl eq_refl)
    as (tm & s' & E & _ & _ & C & D).
  - intros c [<-|[<-|[]]]; eexists; reflexivity.
  - reflexivity.
  - exists s'. split; [exact E|]. split; [exact C | exact D].
Defined.

(** *** What a chat does to the logs *)

Lemma fetch_fetches_at_most_once w region : fetches_at_most_once (_fetch_snapshot w region).
Proof.
  intros s. unfold _fetch_snapshot.
  destruct (webhook_of w region) as [[url|]|e];
    try (simpl; split; [reflexivity|]; exists []; rewrite app_nil_r; auto).
  unfold bind, requests_get.
  destruct (requests_get_json w _ url) as [data|e]; simpl.
  - destruct data; simpl; try (split; [reflexivity|]; exists [url]; auto).
    destruct (py_len _); simpl; (split; [reflexivity|]); exists [url]; auto.
  - split; [reflexivity|]. exists [url]. auto.
Qed.

Lemma then_pure_fetches_at_most_once {A B} (c : M A) (k : A -> result B) :
  fetches_at_most_once c -> fetches_at_most_once (bind c (fun a => lift (k a))).
Proof.
  intros H s. unfold bind, lift. specialize (H s).
  destruct (c s) as [[a|e] s1]; exact H.
Qed.

Lemma tools_fetch_at_most_once w callsign region :
  fetches_at_most_once (flights_list_region_snapshot w region) /\
  fetches_at_most_once (flights_get_by_callsign w callsign region) /\
  fetches_at_most_once (alerts_list_active w region).
Proof.
  repeat split; apply then_pure_fetches_at_most_once, fetch_fetches_at_most_once.
Qed.

Lemma raise_fetches_at_most_once {A} e : fetches_at_most_once (@raise A e).
Proof. intros s. simpl. split; [reflexivity|]. exists []. rewrite app_nil_r. auto. Qed.

Lemma after_arguments_fetches_at_most_once {A B} (r : result A) (k : A -> M B) :
  (forall a, fetches_at_most_once (k a)) -> fetches_at_most_once (bind (lift r) k).
Proof.
  intros H s. unfold bind, lift. destruct r as [a|e]; [apply H|].
  simpl. split; [reflexivity|]. exists []. rewrite app_nil_r. auto.
Qed.

(** A dispatch is one entry in the log and at most one fetch. *)
Lemma execute_tool_logs w name arguments s :
  dispatched (snd (execute_tool w name arguments s))
  = (dispatched s ++ [(name, arguments)])%list /\
  exists new_fetches,
    fetches (snd (execute_tool w name arguments s)) = (fetches s ++ new_fetches)%list /\
    List.length new_fetches <= 1.
Proof.
  unfold execute_tool. unfold bind at 1. unfold log_dispatch at 1.
  fold (dispatched_once s name arguments).
  assert (Q : forall c : M value, fetches_at_most_once c ->
              dispatched (snd (c (dispatched_once s name arguments)))
              = (dispatched s ++ [(name, arguments)])%list /\
              exists new_fetches,
                fetches (snd (c (dispatched_once s name arguments)))
                = (fetches s ++ new_fetches)%list /\
                List.length new_fetches <= 1).
  { intros c Hc. destruct (Hc (dispatched_once s name arguments)) as (D & nf & F & L).
    rewrite D. split; [reflexivity|]. exists nf. auto. }
  repeat match goal with
         | |- context [if ?b then _ else _] => destruct b
         end;
    apply Q;
    repeat (apply after_arguments_fetches_at_most_once; intros);
    first [ apply raise_fetches_at_most_once
          | apply (proj1 (tools_fetch_at_most_once w VNone _))
          | apply (proj1 (proj2 (tools_fetch_at_most_once w _ _)))
          | apply (proj2 (proj2 (tools_fetch_at_most_once w VNone _))) ].
Qed.

Lemma tool_effects_quiet {A} allowed_tools (c : M A) :
  (forall s, dispatched (snd (c s)) = dispatched s /\ fetches (snd (c s)) = fetches s) ->
  tool_effects allowed_tools c.
Proof.
  intros H s. destruct (H s) as (D & F). exists [], [].
  rewrite D, F, !app_nil_r. auto.
Qed.

Lemma tool_effects_bind {A B} allowed_tools (c : M A) (k : A -> M B) :
  tool_effects allowed_tools c -> (forall a, tool_effects allowed_tools (k a)) ->
  tool_effects allowed_tools (bind c k).
Proof.
  intros Hc Hk s. unfold bind. destruct (Hc s) as (d1 & f1 & D1 & F1 & L1 & A1).
  destruct (c s) as [[a|e] s1]; simpl in *.
  - destruct (Hk a s1) as (d2 & f2 & D2 & F2 & L2 & A2).
    exists (d1 ++ d2)%list, (f1 ++ f2)%list.
    rewrite D2, F2, D1, F1, <- !app_assoc, !length_app.
    repeat split; auto; [lia | apply Forall_app; auto].
  - exists d1, f1. auto.
Qed.

Lemma tool_effects_create allowed_tools w req :
  tool_effects allowed_tools (chat_completions_create w req).
Proof.
  apply tool_effects_quiet. intros s.
  unfold chat_completions_create, bind, client.
  destruct (client_built s); simpl; [auto|].
  destruct (get_groq_client w) as [[]|e]; simpl; auto.
Qed.

Lemma tool_effects_call w allowed_tools call :
  tool_effects allowed_tools (run_tool_call w allowed_tools call).
Proof.
  intros s. destruct (json_loads w (arguments_text call)) as [args|e] eqn:D.
  - rewrite (run_tool_call_decoded _ _ _ _ _ D). cbn [snd].
    destruct (not_allowed allowed_tools (fn_name call)) eqn:N.
    + rewrite (tool_outcome_refused _ _ _ _ _ N). cbn [snd].
      exists [], []. rewrite !app_nil_r. auto.
    + destruct (tool_outcome_dispatched w allowed_tools call args s N) as (_ & ->).
      destruct (execute_tool_logs w (fn_name call) args s) as (E & nf & F & L).
      exists [(fn_name call, args)], nf. rewrite E, F. repeat split; auto.
  - rewrite (run_tool_call_undecoded _ _ _ _ _ D). cbn [snd].
    exists [], []. rewrite !app_nil_r. auto.
Qed.

Lemma tool_effects_calls w allowed_tools calls :
  forall messages, tool_effects allowed_tools (run_tool_calls w allowed_tools calls messages).
Proof.
  induction calls as [|call rest IH]; intros messages; simpl.
  - apply tool_effects_quiet. intros s. simpl. auto.
  - apply tool_effects_bind; [apply tool_effects_call | intros; apply IH].
Qed.

Lemma tool_effects_chat w system_prompt user_query allowed_tools :
  tool_effects allowed_tools
    (run_tool_calling_chat w system_prompt user_query allowed_tools).
Proof.
  unfold run_tool_calling_chat.
  apply tool_effects_bind; [apply tool_effects_create|]. intros first.
  destruct (tool_calls first) as [[|call rest]|];
    try solve [apply tool_effects_quiet; intros s; simpl; auto].
  change (tool_effects allowed_tools
            (bind (run_tool_calls w allowed_tools (call :: rest)
                     (opening system_prompt user_query ++ [Assistant first])%list)
                  (fun messages =>
                     bind (chat_completions_create w (plain_request messages))
                          (fun final => ret (content_or_empty final))))).
  apply tool_effects_bind; [apply tool_effects_calls|]. intros messages.
  apply tool_effects_bind; [apply tool_effects_create|]. intros final.
  apply tool_effects_quiet. intros s. simpl. auto.
Qed.

Lemma tool_effects_any {A} allowed_tools (c : M A) :
  tool_effects allowed_tools c -> tool_effects None c.
Proof.
  intros H s. destruct (H s) as (d & f & D & F & L & _).
  exists d, f. repeat split; auto. apply Forall_forall. reflexivity.
Qed.

(** X22: however a chat ends, the tools it has dispatched are tools its
    allow-list admits: the traveler agent dispatches nothing but the lookup,
    the ops agent nothing but the snapshot and the alerts, whatever names
    the model asks for. *)
Theorem only_allowed_tools_are_dispatched w question s :
  (forall system_prompt allowed_tools,
   exists new,
     dispatched (snd (run_tool_calling_chat w system_prompt question allowed_tools s))
     = (dispatched s ++ new)%list /\
     Forall (fun d => not_allowed allowed_tools (fst d) = false) new) /\
  (exists new,
     dispatched (snd (traveler_agent w question s)) = (dispatched s ++ new)%list /\
     Forall (fun d => fst d = "flights_get_by_callsign") new) /\
  (exists new,
     dispatched (snd (ops_agent w question s)) = (dispatched s ++ new)%list /\
     Forall (fun d => fst d = "flights_list_region_snapshot"
                      \/ fst d = "alerts_list_active") new).
Proof.
  split; [|split].
  - intros system_prompt allowed_tools.
    destruct (tool_effects_chat w system_prompt question allowed_tools s)
      as (d & f & D & _ & _ & A).
    exists d. auto.
  - unfold traveler_agent.
    match goal with |- context [run_tool_calling_chat w ?p question ?a s] =>
      destruct (tool_effects_chat w p question a s) as (d & f & D & _ & _ & A)
    end.
    exists d. split; [exact D|].
    eapply Forall_impl; [|exact A]. intros [name args] N. simpl in *.
    destruct (String.eqb_spec name "flights_get_by_callsign"); [assumption|].
    discriminate N.
  - unfold ops_agent.
    match goal with |- context [run_tool_calling_chat w ?p question ?a s] =>
      destruct (tool_effects_chat w p question a s) as (d & f & D & _ & _ & A)
    end.
    exists d. split; [exact D|].
    eapply Forall_impl; [|exact A]. intros [name args] N. simpl in *.
    destruct (String.eqb_spec name "flights_list_region_snapshot"); [now left|].
    destruct (String.eqb_spec name "alerts_list_active"); [now right|].
    discriminate N.
Qed.

(** X23: the flight source is asked only through a dispatched tool, and at
    most once per dispatch: in a chat, and in a run of the orchestrator, the
    fetches made are never more than the tools dispatched, however the run
    ends. *)
Theorem fetches_are_bounded_by_dispatches w s :
  (forall system_prompt user_query allowed_tools,
     let s' := snd (run_tool_calling_chat w system_prompt user_query allowed_tools s) in
     List.length (fetches s') - List.length (fetches s)
     <= List.length (dispatched s') - List.length (dispatched s)) /\
  (forall callsign passenger_question,
     let s' := snd (traveler_with_ops w callsign passenger_question s) in
     List.length (fetches s') - List.length (fetches s)
     <= List.length (dispatched s') - List.length (dispatched s)).
Proof.
  assert (B : forall A (c : M A), tool_effects None c ->
              List.length (fetches (snd (c s))) - List.length (fetches s)
              <= List.length (dispatched (snd (c s))) - List.length (dispatched s)).
  { intros A c H. destruct (H s) as (d & f & -> & -> & L & _).
    rewrite !length_app. lia. }
  split; intros; cbv zeta; apply B.
  - eapply tool_effects_any, tool_effects_chat.
  - unfold traveler_with_ops, traveler_agent, ops_agent.
    apply tool_effects_bind; [eapply tool_effects_any, tool_effects_chat|].
    intros r1.
    apply tool_effects_bind; [eapply tool_effects_any, tool_effects_chat|].
    intros r2.
    apply tool_effects_bind; [apply tool_effects_create|]. intros final.
    apply tool_effects_quiet. intros s0. simpl. auto.
Qed.

(** *** The orchestrator *)

(** X24: a failure of the completion service is not caught anywhere.  When
    the service fails on the next call, the orchestrator ends on that
    exception after the one attempt, the traveler role's first request: the
    ops role is never asked, nothing is dispatched, nothing is retried. *)
Theorem service_failure_stops_the_orchestrator w callsign passenger_question s e :
  client_ready w s ->
  (forall req, completions_create w (List.length (completions s)) req = Raise e) ->
  exists req,
    traveler_with_ops w callsign passenger_question s = (Raise e, after_call s req) /\
    req_tools req = Some (tools_for (Some ["flights_get_by_callsign"])).
Proof.
  intros R F. eexists.
  unfold traveler_with_ops, traveler_agent, run_tool_calling_chat.
  unfold bind. rewrite (create_ready _ _ _ R), F. split; reflexivity.
Qed.

Lemma service_failure_stops_the_orchestrator_witness :
  exists s',
    traveler_with_ops MoreScenarios.service_down "PIA293" "Is everything normal?"
      initial = (Raise (APIError "Connection error."), s') /\
    List.length (completions s') = 1 /\ dispatched s' = [].
Proof.
  destruct (service_failure_stops_the_orchestrator MoreScenarios.service_down
              "PIA293" "Is everything normal?" initial (APIError "Connection error.")
              (or_intror eq_refl) (fun _ => eq_refl)) as (req & E & _).
  eexists. split; [exact E|]. split; reflexivity.
Defined.

(** X25: the orchestrator is the two roles in sequence and one closing call.
    A run that returns has asked the traveler role the flight question, then
    the ops role its question about the same flight, then the service,
    without tools, for one answer to a prompt that quotes the passenger's
    question, the callsign and both replies as they came; it returns the
    content of that last answer. *)
Theorem orchestrator_composes_the_two_answers w callsign passenger_question s answer s' :
  traveler_with_ops w callsign passenger_question s = (Ok answer, s') ->
  exists traveler_reply s1 ops_reply s2 final,
    traveler_agent w (base_question callsign passenger_question) s
    = (Ok traveler_reply, s1) /\
    ops_agent w (ops_prompt callsign) s1 = (Ok ops_reply, s2) /\
    completions_create w (List.length (completions s2))
      (plain_request (synthesis callsign passenger_question traveler_reply ops_reply))
    = Ok final /\
    answer = content_or_empty final /\
    s' = after_call s2
           (plain_request
              (synthesis callsign passenger_question traveler_reply ops_reply)).
Proof.
  unfold traveler_with_ops.
  fold (base_question callsign passenger_question). fold (ops_prompt callsign).
  unfold bind at 1. intros H.
  destruct (traveler_agent w (base_question callsign passenger_question) s)
    as [[r1|e] s1] eqn:T; [|discriminate H].
  unfold bind at 1 in H.
  destruct (ops_agent w (ops_prompt callsign) s1) as [[r2|e] s2] eqn:O;
    [|discriminate H].
  unfold bind in H.
  fold (synthesis callsign passenger_question r1 r2) in H.
  destruct (chat_completions_create w
              (plain_request (synthesis callsign passenger_question r1 r2)) s2)
    as [[final|e] s3] eqn:C; [|discriminate H].
  injection H as <- <-. apply create_inv in C. destruct C as (_ & C & ->).
  exists r1, s1, r2, s2, final. repeat split; auto.
Qed.

Lemma orchestrator_composes_the_two_answers_witness :
  exists s2 s',
    traveler_with_ops MoreScenarios.ops_checks_alerts "PIA293" "Is everything normal?"
      initial = (Ok "Your flight is being watched.", s') /\
    s' = after_call s2
           (plain_request
              (synthesis "PIA293" "Is everything normal?"
                 "PIA293 is at 9000 m." "Two anomalies in region1.")).
Proof.
  eassert (H : traveler_with_ops MoreScenarios.ops_checks_alerts "PIA293"
                 "Is everything normal?" initial = (Ok _, _))
    by (vm_compute; reflexivity).
  destruct (orchestrator_composes_the_two_answers _ _ _ _ _ _ H)
    as (r1 & s1 & r2 & s2 & final & T & O & C & A & E).
  vm_compute in T. injection T as <- <-.
  vm_compute in O. injection O as <- <-.
  eexists. eexists. split; [exact H|]. exact E.
Defined.

End AgentsMore.

(** ** Properties of [ui_app.py] *)

Module UiProps.
Import Py Runtime Server Agents Notions MoreNotions Ui ServerProps ServerMore.
Local Open Scope py_scope.

(** On a well-typed flight the callsign shown is the stored text trimmed, and
    the lookup's stored callsign is its upper case. *)
Lemma shown_callsign_typed f :
  Flight f = true ->
  exists cs, shown_callsign f = Ok (VStr cs) /\ stored_callsign f = Ok (upper cs).
Proof.
  intros T. destruct (Flight_callsign f T) as (d & -> & [E | [E | (c & E)]]);
    unfold shown_callsign, stored_callsign; simpl; rewrite E; simpl.
  - exists "". auto.
  - exists "". auto.
  - unfold py_or. simpl. destruct (String.eqb_spec c "") as [->|N]; simpl.
    + exists "". auto.
    + exists (strip c). auto.
Qed.


Lemma flight_row_typed f : Flight f = true -> exists row, flight_row f = Ok row.
Proof.
  intros T. unfold flight_row.
  destruct (shown_callsign_typed f T) as (cs & -> & _).
  destruct (Flight_not_None f T) as (d & ->). simpl. eauto.
Qed.

Lemma table_rows_typed flights :
  forallb Flight flights = true ->
  forall acc, exists rows,
    table_rows acc flights = Ok (acc ++ rows)%list /\
    Forall2 row_of_flight rows flights.
Proof.
  induction flights as [|f rest IH]; simpl; intros T acc.
  - exists []. rewrite app_nil_r. split; [reflexivity | constructor].
  - apply andb_prop in T. destruct T as [Tf Tr].
    destruct (flight_row_typed f Tf) as (row & E). rewrite E. cbn [rbind].
    destruct (IH Tr (acc ++ [row])%list) as (rows & -> & F).
    exists (row :: rows). rewrite <- app_assoc. split; [reflexivity|].
    constructor; assumption.
Qed.

(** X26: on a well-typed snapshot the snapshot view never fails: it shows the
    summary line with the region, the time and the count as the snapshot has
    them, and then either the notice that there are no flights, exactly when
    the snapshot lists none, or a table with one row per flight, in the order
    of the snapshot. *)
Theorem snapshot_view_shows_every_flight w region page s snap s' flights :
  _fetch_snapshot w (VStr region) s = (Ok snap, s') ->
  Snapshot snap = true ->
  flights_of snap = Ok flights ->
  exists r t n last,
    py_getitem snap "region" = Ok r /\
    py_getitem snap "snapshot_time" = Ok t /\
    py_getitem snap "flight_count" = Ok n /\
    fetch_latest_snapshot w region page s
    = (Ok tt,
       (page ++ [Markdown "**Region summary**";
                 Write ("Region: `" ++ py_str w r ++ "`, snapshot time: `"
                        ++ py_str w t ++ "`, flight count: `" ++ py_str w n ++ "`");
                 last])%list, s') /\
    ((flights = [] /\ last = Info "No flights in snapshot.")
     \/ (flights <> [] /\
         exists rows, last = Dataframe rows /\ Forall2 row_of_flight rows flights)).
Proof.
  intros H T F.
  pose proof (Snapshot_flights _ _ T F) as A.
  destruct snap as [| | | | | |d]; try discriminate T.
  assert (K : exists r t n l,
             dict_get "region" d = Some r /\ dict_get "snapshot_time" d = Some t /\
             dict_get "flight_count" d = Some n /\
             dict_get "flights" d = Some (VList l)).
  { unfold Snapshot in T. simpl in T. unfold key_of in T. simpl in T.
    destruct (dict_get "region" d) as [r|]; [|discriminate].
    destruct (dict_get "snapshot_time" d) as [t|]; [|now rewrite andb_false_r in T].
    destruct (dict_get "flight_count" d) as [n|];
      [|now rewrite !andb_false_r in T].
    destruct (dict_get "flights" d) as [[| | | | |l|]|];
      try (simpl in T; now rewrite !andb_false_r in T).
    exists r, t, n, l. auto. }
  destruct K as (r & t & n & l & R & ST & N & L).
  assert (l = flights) as ->.
  { unfold flights_of in F. simpl in F. rewrite L in F. simpl in F. congruence. }
  unfold fetch_latest_snapshot, and_then, call, show, eval,
    flights_list_region_snapshot, bind, ret.
  rewrite H. simpl. unfold dict_getitem. rewrite R, ST, N, L. cbn [rbind].
  destruct flights as [|f rest].
  - exists r, t, n, (Info "No flights in snapshot."). simpl.
    rewrite <- !app_assoc. simpl. repeat split; auto.
  - destruct (table_rows_typed (f :: rest) A []) as (rows & E & F2).
    cbn [truthy py_iter rbind]. rewrite E. simpl.
    exists r, t, n, (Dataframe rows). rewrite <- !app_assoc. simpl.
    repeat split; auto. right. split; [discriminate|]. eauto.
Qed.

Lemma snapshot_view_shows_every_flight_witness :
  exists line r1 r2 r3 r4 s',
    fetch_latest_snapshot Scenario.traffic "region1" [] initial
    = (Ok tt, [Markdown "**Region summary**"; Write line; Dataframe [r1; r2; r3; r4]], s')
    /\ flight_row Scenario.PIA293 = Ok r2.
Proof.
  destruct (snapshot_view_shows_every_flight Scenario.traffic "region1" [] initial _ _ _
              eq_refl eq_refl eq_refl)
    as (r & t & n & last & _ & _ & _ & E & [(N & _) | (_ & rows & -> & F)]).
  - discriminate N.
  - inversion F as [|x1 f1 l1 m1 R1 F1]; subst.
    inversion F1 as [|x2 f2 l2 m2 R2 F2]; subst.
    inversion F2 as [|x3 f3 l3 m3 R3 F3]; subst.
    inversion F3 as [|x4 f4 l4 m4 R4 F4]; subst.
    inversion F4; subst.
    eexists. exists x1, x2, x3, x4. eexists. split; [exact E | exact R2].
Defined.

Lemma alert_row_typed f reasons :
  Flight f = true ->
  exists row,
    alert_row (alert f reasons "warning") = Ok row /\
    py_getitem row "reason" = Ok (VStr (join "; " reasons)) /\
    py_getitem row "severity" = Ok (VStr "warning").
Proof.
  intros T. unfold alert_row, alert. simpl. unfold dict_getitem. simpl.
  destruct (shown_callsign_typed f T) as (cs & -> & _).
  destruct (Flight_not_None f T) as (d & ->). simpl.
  eexists. split; [reflexivity|]. split; reflexivity.
Qed.

Lemma alert_rows_typed alerts flagged_flights :
  Forall2 alert_of alerts flagged_flights ->
  forallb Flight flagged_flights = true ->
  forall acc, exists rows,
    alert_rows acc alerts = Ok (acc ++ rows)%list /\
    Forall2 row_of_alert rows flagged_flights.
Proof.
  induction 1 as [|a f alerts fs (reasons & E & _ & ->) F IH]; simpl; intros T acc.
  - exists []. rewrite app_nil_r. split; [reflexivity | constructor].
  - apply andb_prop in T. destruct T as [Tf Tr].
    destruct (alert_row_typed f reasons Tf) as (row & R & Rr & Rs).
    fold (alert f reasons "warning"). rewrite R. cbn [rbind].
    destruct (IH Tr (acc ++ [row])%list) as (rows & -> & F2).
    exists (row :: rows). rewrite <- app_assoc. split; [reflexivity|].
    constructor; [|exact F2]. exists reasons. auto.
Qed.

Lemma filter_typed (p : value -> bool) flights :
  forallb Flight flights = true -> forallb Flight (filter p flights) = true.
Proof.
  rewrite !forallb_forall. intros A f I. apply filter_In in I. apply A, I.
Qed.

(** X27: on a well-typed snapshot the anomalies view never fails on what the
    detector returns: after the summary line with the number of alerts it
    shows the all-clear exactly when no flight is flagged, and otherwise a
    table with one row per flagged flight, in the order of the snapshot,
    each with the joined reasons of its flight and the severity warning. *)
Theorem anomalies_view_shows_every_alert w region page s snap s' flights :
  _fetch_snapshot w (VStr region) s = (Ok snap, s') ->
  Snapshot snap = true ->
  flights_of snap = Ok flights ->
  exists r last,
    py_getitem snap "region" = Ok r /\
    analyze_anomalies w region false page s
    = (Ok tt,
       (page ++ [Markdown "**Anomalies detected**";
                 Write ("Region: `" ++ py_str w r ++ "`, Alerts: `"
                        ++ py_str w (VInt (Z.of_nat
                                             (List.length (filter flagged flights))))
                        ++ "`");
                 last])%list, s') /\
    ((filter flagged flights = [] /\
      last = Success "No active anomalies based on simple rules.")
     \/ (filter flagged flights <> [] /\
         exists rows,
           last = Dataframe rows /\
           Forall2 row_of_alert rows (filter flagged flights))).
Proof.
  intros H T F.
  pose proof (Snapshot_flights _ _ T F) as A.
  destruct (Snapshot_inv snap T) as (d & r & t & i & l & -> & R & ST & I & L & _).
  destruct (alerts_loop_typed flights A []) as (alerts & E).
  destruct (alerts_loop_spec _ _ _ E) as (new & -> & F2). simpl in E, F2.
  pose proof (Forall2_length F2) as Len.
  exists r. 
  assert (Run : alerts_list_active w (VStr region) s
                = (Ok (VDict [("region", r); ("snapshot_time", t);
                              ("fetched_at_iso", i);
                              ("alert_count", VInt (Z.of_nat (List.length new)));
                              ("alerts", VList new)]), s')).
  { unfold alerts_list_active, bind, lift. rewrite H.
    fold (flights_of (VDict d)). rewrite F. cbn [rbind]. rewrite E.
    cbn [rbind py_getitem]. unfold dict_getitem. rewrite R, ST, I. reflexivity. }
  unfold analyze_anomalies, and_then, call, show, eval, done.
  rewrite Run. cbn [py_getitem]. unfold dict_getitem. simpl dict_get.
  cbn [rbind]. rewrite <- Len.
  destruct new as [|a rest].
  - inversion F2 as [E0|]. exists (Success "No active anomalies based on simple rules.").
    simpl. rewrite <- !app_assoc. simpl. split; [now rewrite R|].
    split; [reflexivity|]. left. auto.
  - destruct (alert_rows_typed _ _ F2 (filter_typed flagged flights A) [])
      as (rows & Er & Fr).
    exists (Dataframe rows). split; [simpl; now rewrite R|].
    assert (Z : py_eq_zero (VInt (Z.of_nat (List.length (a :: rest)))) = false).
    { simpl. reflexivity. }
    rewrite Z. simpl dict_get. cbn [py_iter rbind]. rewrite Er. simpl.
    rewrite <- !app_assoc. simpl. split; [reflexivity|].
    right. split; [|eauto].
    intros N. rewrite N in Len. discriminate Len.
Qed.

Lemma anomalies_view_shows_every_alert_witness :
  exists line rows s',
    analyze_anomalies Scenario.traffic "region1" false [] initial
    = (Ok tt, [Markdown "**Anomalies detected**"; Write line; Dataframe rows], s')
    /\ Forall2 row_of_alert rows [Scenario.PIA293; Scenario.climbing].
Proof.
  destruct (anomalies_view_shows_every_alert Scenario.traffic "region1" [] initial _ _ _
              eq_refl eq_refl eq_refl)
    as (r & last & _ & E & [(N & _) | (_ & rows & -> & F)]).
  - discriminate N.
  - eexists. exists rows. eexists. split; [exact E | exact F].
Defined.



End UiProps.
